(** * Events backend (`application.py`): a shallow embedding and its properties

    The service is a Flask application with four routes
    ([/health], [/events], [/debug_last_event], [/data]) over a MySQL store
    reached through PyMySQL.  The embedding follows the Python source
    function by function:

    - Python values that [request.get_json()] can hand to the view are the
      type [json];
    - the process and the store it talks to are the record [world]
      (environment, open connections, the two tables, the global
      [LAST_EVENT_PAYLOAD]);
    - Python code that may raise and that touches the store is a computation
      in the monad [M], a state monad over [world] with exceptions [exn];
      [try/except], [try/finally] and [with] have their own combinators.

    What the MySQL server makes of a bound parameter (coercion to the column
    type, refusal of a value) is not part of the repository: it is the
    interface [Engine].  A connection object that loses its last reference
    is released by the interpreter, which runs PyMySQL's destructor at
    once (CPython counts references); this is modelled at the places where
    the source drops the reference.  A statement fails for the reasons the
    model gives it (a table that does not exist, a value that the server
    refuses, a connection that is not open); a server that goes away in the
    middle of a request, or an account without the right to run a
    statement, is outside the model.  Logging is not modelled. *)

From Stdlib Require Import Ascii String DecimalString.
From stdpp Require Import base decidable option list strings gmap sorting.

Set Warnings "-register-all".
Local Open Scope Z_scope.

(** ** Python values coming out of [request.get_json()] *)

(** JSON numbers are restricted to integers (no floating point). A dict is
    the list of its items in insertion order. *)
Inductive json : Type :=
| JNull
| JBool (b : bool)
| JInt (z : Z)
| JStr (s : string)
| JArr (items : list json)
| JObj (fields : list (string * json)).

(** [bool(v)] *)
Definition truthy (v : json) : bool :=
  match v with
  | JNull => false
  | JBool b => b
  | JInt z => negb (z =? 0)
  | JStr s => negb (String.eqb s EmptyString)
  | JArr l => match l with [] => false | _ => true end
  | JObj l => match l with [] => false | _ => true end
  end.

(** [d.get(k)] on the items of a dict: the value, or [None]. *)
Fixpoint dict_get (k : string) (d : list (string * json)) : json :=
  match d with
  | [] => JNull
  | (k', v) :: d' => if String.eqb k k' then v else dict_get k d'
  end.

(** [k in d] on the items of a dict. *)
Fixpoint dict_has (k : string) (d : list (string * json)) : bool :=
  match d with
  | [] => false
  | (k', _) :: d' => String.eqb k k' || dict_has k d'
  end.

(** [x == s] for a str [s]. *)
Definition eq_str (s : string) (x : json) : bool :=
  match x with JStr t => String.eqb s t | _ => false end.

Fixpoint starts_with (p s : string) : bool :=
  match p, s with
  | EmptyString, _ => true
  | String a p', String b s' => Ascii.eqb a b && starts_with p' s'
  | String _ _, EmptyString => false
  end.

(** [p in s] for two str: substring test. *)
Fixpoint substring_of (p s : string) : bool :=
  starts_with p s ||
  match s with
  | EmptyString => false
  | String _ s' => substring_of p s'
  end.

(** Name of the Python type, as it appears in interpreter messages. *)
Definition type_name (v : json) : string :=
  match v with
  | JNull => "NoneType"
  | JBool _ => "bool"
  | JInt _ => "int"
  | JStr _ => "str"
  | JArr _ => "list"
  | JObj _ => "dict"
  end.

(** ** [json.dumps(payload, ensure_ascii=False)] *)

Definition hex_digit (n : N) : ascii :=
  match n with
  | 0%N => "0" | 1%N => "1" | 2%N => "2" | 3%N => "3" | 4%N => "4"
  | 5%N => "5" | 6%N => "6" | 7%N => "7" | 8%N => "8" | 9%N => "9"
  | 10%N => "a" | 11%N => "b" | 12%N => "c" | 13%N => "d" | 14%N => "e"
  | _ => "f"
  end%char.

Definition quote : ascii := ascii_of_N 34.
Definition backslash : ascii := ascii_of_N 92.

(** A backslash followed by the text [s]. *)
Definition esc (s : string) : string := String backslash s.

(** One character of a str inside the quotes: the quote, the backslash and
    the control characters below 0x20 are escaped, everything else (so
    every non-ASCII byte) is copied. *)
Definition escape_char (c : ascii) : string :=
  let n := N_of_ascii c in
  if (n =? 34)%N then esc (String quote EmptyString)
  else if (n =? 92)%N then esc (String backslash EmptyString)
  else if (n =? 10)%N then esc "n"
  else if (n =? 13)%N then esc "r"
  else if (n =? 9)%N then esc "t"
  else if (n =? 8)%N then esc "b"
  else if (n =? 12)%N then esc "f"
  else if (n <? 32)%N then
    esc ("u00" +:+ String (hex_digit (n / 16)) (String (hex_digit (n mod 16)) EmptyString))
  else String c EmptyString.

Fixpoint escape_string (s : string) : string :=
  match s with
  | EmptyString => EmptyString
  | String c s' => escape_char c +:+ escape_string s'
  end.

Definition dumps_str (s : string) : string :=
  String quote (escape_string s +:+ String quote EmptyString).

Definition dumps_int (z : Z) : string := NilZero.string_of_int (Z.to_int z).

Fixpoint join (sep : string) (l : list string) : string :=
  match l with
  | [] => EmptyString
  | [x] => x
  | x :: l' => x +:+ sep +:+ join sep l'
  end.

Fixpoint dumps (v : json) : string :=
  match v with
  | JNull => "null"
  | JBool true => "true"
  | JBool false => "false"
  | JInt z => dumps_int z
  | JStr s => dumps_str s
  | JArr l => "[" +:+ join ", " (map dumps l) +:+ "]"
  | JObj l =>
      "{" +:+
      join ", " (map (fun kv : string * json => dumps_str kv.1 +:+ ": " +:+ dumps kv.2) l)
      +:+ "}"
  end.


(** ** The store: tables as the source's DDL declares them *)

(** A value of a [DATE] column. *)
Record date : Type := Date { year : nat; month : nat; day : nat }.

Definition digits (n : nat) : string := NilZero.string_of_uint (Nat.to_uint n).

Fixpoint zeros (n : nat) : string :=
  match n with
  | O => EmptyString
  | S n' => String "0" (zeros n')
  end.

Definition zero_pad (width : nat) (n : nat) : string :=
  let s := digits n in zeros (width - String.length s) +:+ s.

(** [DATE_FORMAT(date, '%Y-%m-%d')]: year on four digits, month and day on
    two. *)
Definition DATE_FORMAT (d : date) : string :=
  zero_pad 4 (year d) +:+ "-" +:+ zero_pad 2 (month d) +:+ "-" +:+ zero_pad 2 (day d).

(** The order of [DATE] values, as [ORDER BY date ASC] uses it. *)
Definition date_leb (a b : date) : bool :=
  if (year a <? year b)%nat then true
  else if (year b <? year a)%nat then false
  else if (month a <? month b)%nat then true
  else if (month b <? month a)%nat then false
  else (day a <=? day b)%nat.

Inductive coltype : Type := VARCHAR255 | TEXT.

(** [events (id INT AUTO_INCREMENT PRIMARY KEY, title VARCHAR(255) NOT NULL,
    description TEXT, image_url VARCHAR(255), date DATE NOT NULL,
    location VARCHAR(255))]; a nullable column holds [None] for NULL. *)
Record event_row : Type := EventRow {
  ev_id : Z;
  ev_title : string;
  ev_description : option string;
  ev_image_url : option string;
  ev_date : date;
  ev_location : option string
}.

(** The events table: the current type of its [image_url] column (the
    writer alters it), the next AUTO_INCREMENT value, and the rows in
    insertion order. *)
Record events_table : Type := EventsTable {
  image_url_type : coltype;
  auto_increment : Z;
  ev_rows : list event_row
}.

(** [debug_last_payload (id INT PRIMARY KEY, payload_json TEXT,
    created_at TIMESTAMP DEFAULT CURRENT_TIMESTAMP ...)] *)
Record debug_row : Type := DebugRow {
  dbg_id : Z;
  payload_json : option string;
  created_at : Z
}.

(** A connection handed out by the driver: [Open]; [Closed] once
    [close()] has been called on it; [ForceClosed] when its socket was closed
    by the destructor ([Connection.__del__] is [_force_close]) because the
    last reference to the object went away before [close()] was called. *)
Inductive conn_state : Type := Open | Closed | ForceClosed.

(** How [pymysql.connect] fails: with [OperationalError] (server not
    reachable, access denied, too many connections), or with an exception of
    another class, for instance the [RuntimeError] the driver raises when the
    authentication method of the server needs a package that is not
    installed. *)
Inductive refusal : Type :=
| Operational (text : string)
| NotOperational (text : string).

(** The process and its store.
    - [environ]: [os.environ];
    - [refusals]: how the coming connection attempts end, oldest first,
      [None] for a connection, [Some r] for the failure [r]; attempts beyond
      the list succeed;
    - [connections]: every connection handed out so far, by handle;
    - [events], [debug_last_payload]: the two tables, [None] while the table
      does not exist;
    - [LAST_EVENT_PAYLOAD]: the module global;
    - [now]: the server's CURRENT_TIMESTAMP. *)
Record world : Type := World {
  environ : gmap string string;
  refusals : list (option refusal);
  connections : list conn_state;
  events : option events_table;
  debug_last_payload : option (list debug_row);
  LAST_EVENT_PAYLOAD : json;
  now : Z
}.

Definition set_refusals (r : list (option refusal)) (w : world) : world :=
  World (environ w) r (connections w) (events w) (debug_last_payload w)
        (LAST_EVENT_PAYLOAD w) (now w).
Definition set_connections (c : list conn_state) (w : world) : world :=
  World (environ w) (refusals w) c (events w) (debug_last_payload w)
        (LAST_EVENT_PAYLOAD w) (now w).
Definition set_events (t : option events_table) (w : world) : world :=
  World (environ w) (refusals w) (connections w) t (debug_last_payload w)
        (LAST_EVENT_PAYLOAD w) (now w).
Definition set_debug_last_payload (t : option (list debug_row)) (w : world) : world :=
  World (environ w) (refusals w) (connections w) (events w) t
        (LAST_EVENT_PAYLOAD w) (now w).
Definition set_LAST_EVENT_PAYLOAD (v : json) (w : world) : world :=
  World (environ w) (refusals w) (connections w) (events w) (debug_last_payload w)
        v (now w).

(** ** Exceptions *)

(** Why the server refuses a statement. *)
Inductive dberror : Type :=
| NoSuchTable (table : string)
| ColumnCannotBeNull (column : string)
| ValueRefused (column : string)
| AlreadyClosed
| ConnectionClosed.

Inductive exn : Type :=
| NotImplementedError (msg : string)
| EnvironmentError (msg : string)
| ConnectionError (msg : string)
| RuntimeError (msg : string)
| ValueError (msg : string)
| TypeError (msg : string)
| AttributeError (msg : string)
| OperationalError (msg : string)  (* pymysql.err.OperationalError from pymysql.connect *)
| MySQLError (e : dberror)         (* any other pymysql.err.MySQLError *)
| HTTPException (code : Z) (msg : string). (* werkzeug, from request.get_json() *)

(** ** The server behind the driver

    What a column holds after a statement binds a Python value to it is the
    server's business.  [bind_text ty v] is the cell a text column of type
    [ty] gets for the parameter [v] ([Some None] is NULL), [bind_date v] the
    cell of a [DATE] column; [None] means that the server refuses the
    statement.  Two facts are fixed: the driver sends [None] as the literal
    NULL, and a server in strict mode stores a str unchanged or refuses it.
    [describe] is the text of a driver error. *)
Class Engine : Type := {
  bind_text : coltype -> json -> option (option string);
  bind_date : json -> option date;
  describe : dberror -> string;
  bind_text_null : forall ty, bind_text ty JNull = Some None;
  bind_text_str : forall ty s c, bind_text ty (JStr s) = Some c -> c = Some s
}.

(** [str(e)] *)
Definition str `{Engine} (e : exn) : string :=
  match e with
  | NotImplementedError m | EnvironmentError m | ConnectionError m
  | RuntimeError m | ValueError m | TypeError m | AttributeError m
  | OperationalError m => m
  | MySQLError d => describe d
  | HTTPException _ m => m
  end.

(** ** Computations: state over [world], with exceptions *)

Inductive result (A : Type) : Type :=
| Ok (a : A)
| Raise (e : exn).
Arguments Ok {A} a.
Arguments Raise {A} e.

Definition M (A : Type) : Type := world -> result A * world.

Definition ret {A} (a : A) : M A := fun w => (Ok a, w).
Definition raise {A} (e : exn) : M A := fun w => (Raise e, w).
Definition bind {A B} (m : M A) (k : A -> M B) : M B :=
  fun w => match m w with
           | (Ok a, w') => k a w'
           | (Raise e, w') => (Raise e, w')
           end.
Definition get_world : M world := fun w => (Ok w, w).
Definition modify (f : world -> world) : M unit := fun w => (Ok tt, f w).

(** [try: m  except Exception as e: h e] *)
Definition try_except {A} (m : M A) (h : exn -> M A) : M A :=
  fun w => match m w with
           | (Ok a, w') => (Ok a, w')
           | (Raise e, w') => h e w'
           end.

(** [try: m  finally: f]: [f] runs on both exits; an exception of [f]
    replaces the outcome of [m]. *)
Definition try_finally {A} (m : M A) (f : M unit) : M A :=
  fun w => match m w with
           | (r, w') => match f w' with
                        | (Ok _, w'') => (r, w'')
                        | (Raise e, w'') => (Raise e, w'')
                        end
           end.

Declare Scope py_scope.
Delimit Scope py_scope with py.
Notation "x <- m ;; k" := (bind m (fun x => k))
  (at level 100, m at next level, right associativity) : py_scope.
Notation "m ;; k" := (bind m (fun _ => k))
  (at level 100, right associativity) : py_scope.
Local Open Scope py_scope.

(** ** The driver (PyMySQL) *)

Section Application.
Context `{Engine}.

(** [pymysql.connect(...)]: the next answer of the server is consumed; a new
    handle is the next index of [connections]. *)
Definition pymysql_connect : M nat := fun w =>
  match refusals w with
  | Some (Operational text) :: rest => (Raise (OperationalError text), set_refusals rest w)
  | Some (NotOperational text) :: rest => (Raise (RuntimeError text), set_refusals rest w)
  | None :: rest =>
      (Ok (length (connections w)),
       set_connections (connections w ++ [Open]) (set_refusals rest w))
  | [] => (Ok (length (connections w)), set_connections (connections w ++ [Open]) w)
  end.

(** [connection.close()]: closing twice raises [Error("Already closed")];
    on a connection whose socket is gone already it only sets the flag. *)
Definition close (c : nat) : M unit := fun w =>
  match connections w !! c with
  | Some Open | Some ForceClosed =>
      (Ok tt, set_connections (<[c := Closed]> (connections w)) w)
  | _ => (Raise (MySQLError AlreadyClosed), w)
  end.

(** [Connection.__del__], run by the interpreter when the last reference
    to the connection object goes away: the socket is closed if it is still
    there; nothing is raised. *)
Definition Connection_del (c : nat) : M unit := fun w =>
  match connections w !! c with
  | Some Open => (Ok tt, set_connections (<[c := ForceClosed]> (connections w)) w)
  | _ => (Ok tt, w)
  end.

(** A statement needs a connection that is still open. *)
Definition check_open (c : nat) : M unit := fun w =>
  match connections w !! c with
  | Some Open => (Ok tt, w)
  | _ => (Raise (MySQLError ConnectionClosed), w)
  end.

(** [connection.commit()].  Every data-changing statement of the source is
    the last one before its commit, so its effect is applied when it
    executes and the commit has nothing left to do. *)
Definition commit (c : nat) : M unit := check_open c.

(** [CREATE TABLE IF NOT EXISTS events (...)] *)
Definition create_events_sql (c : nat) : M unit :=
  check_open c ;;
  modify (fun w => match events w with
                   | None => set_events (Some (EventsTable VARCHAR255 1 [])) w
                   | Some _ => w
                   end).

(** [ALTER TABLE events MODIFY COLUMN image_url TEXT] *)
Definition alter_image_url_sql (c : nat) : M unit :=
  check_open c ;;
  fun w => match events w with
           | None => (Raise (MySQLError (NoSuchTable "events")), w)
           | Some t =>
               (Ok tt, set_events (Some (EventsTable TEXT (auto_increment t) (ev_rows t))) w)
           end.

(** The row the server builds from the five bound parameters, or its
    refusal. *)
Definition new_event_row (t : events_table) (title description image_url date location : json)
  : result event_row :=
  match bind_text VARCHAR255 title with
  | None => Raise (MySQLError (ValueRefused "title"))
  | Some None => Raise (MySQLError (ColumnCannotBeNull "title"))
  | Some (Some title') =>
  match bind_text TEXT description with
  | None => Raise (MySQLError (ValueRefused "description"))
  | Some description' =>
  match bind_text (image_url_type t) image_url with
  | None => Raise (MySQLError (ValueRefused "image_url"))
  | Some image_url' =>
  match bind_date date with
  | None => Raise (MySQLError (ValueRefused "date"))
  | Some date' =>
  match bind_text VARCHAR255 location with
  | None => Raise (MySQLError (ValueRefused "location"))
  | Some location' =>
      Ok (EventRow (auto_increment t) title' description' image_url' date' location')
  end end end end end.

(** [INSERT INTO events (title, description, image_url, date, location)
    VALUES (%s, %s, %s, %s, %s)] *)
Definition insert_event_sql (c : nat) (title description image_url date location : json)
  : M unit :=
  check_open c ;;
  fun w => match events w with
           | None => (Raise (MySQLError (NoSuchTable "events")), w)
           | Some t =>
               match new_event_row t title description image_url date location with
               | Raise e => (Raise e, w)
               | Ok r =>
                   (Ok tt,
                    set_events (Some (EventsTable (image_url_type t) (auto_increment t + 1)
                                                  (ev_rows t ++ [r]))) w)
               end
           end.

(** [ORDER BY date ASC] *)
Definition by_date (a b : event_row) : Prop := date_leb (ev_date a) (ev_date b).

Definition cell (c : option string) : json :=
  match c with Some s => JStr s | None => JNull end.

(** A row of the reader's SELECT as the [DictCursor] returns it. *)
Definition row_dict (r : event_row) : json :=
  JObj [("title", JStr (ev_title r));
        ("date", JStr (DATE_FORMAT (ev_date r)));
        ("image_url", cell (ev_image_url r));
        ("description", cell (ev_description r));
        ("location", cell (ev_location r))].

(** [SELECT title, DATE_FORMAT(date, '%Y-%m-%d') AS date, image_url,
    description, location FROM events ORDER BY date ASC], then
    [fetchall()]. *)
Definition select_events_sql (c : nat) : M (list json) :=
  check_open c ;;
  fun w => match events w with
           | None => (Raise (MySQLError (NoSuchTable "events")), w)
           | Some t => (Ok (map row_dict (merge_sort by_date (ev_rows t))), w)
           end.

(** [CREATE TABLE IF NOT EXISTS debug_last_payload (...)] *)
Definition create_debug_sql (c : nat) : M unit :=
  check_open c ;;
  modify (fun w => match debug_last_payload w with
                   | None => set_debug_last_payload (Some []) w
                   | Some _ => w
                   end).

Definition other_key (r : debug_row) : bool := negb (dbg_id r =? 1).

(** [REPLACE INTO debug_last_payload (id, payload_json) VALUES (1, %s)]:
    the rows with the same primary key are deleted, then the new row is
    inserted; [created_at] takes its default. *)
Definition replace_debug_sql (c : nat) (text : string) : M unit :=
  check_open c ;;
  fun w => match debug_last_payload w with
           | None => (Raise (MySQLError (NoSuchTable "debug_last_payload")), w)
           | Some rows =>
               match bind_text TEXT (JStr text) with
               | None => (Raise (MySQLError (ValueRefused "payload_json")), w)
               | Some text' =>
                   (Ok tt,
                    set_debug_last_payload
                      (Some (List.filter other_key rows ++ [DebugRow 1 text' (now w)])) w)
               end
           end.

(** [SELECT payload_json, created_at FROM debug_last_payload WHERE id=1],
    then [fetchone()]. *)
Definition select_debug_sql (c : nat) : M (option debug_row) :=
  check_open c ;;
  fun w => match debug_last_payload w with
           | None => (Raise (MySQLError (NoSuchTable "debug_last_payload")), w)
           | Some rows => (Ok (List.find (fun r => dbg_id r =? 1) rows), w)
           end.

(** ** The application *)

Definition required_vars : list string := ["DB_HOST"; "DB_USER"; "DB_PASSWORD"; "DB_NAME"].

(** [not os.environ.get(var)] *)
Definition not_set (w : world) (var : string) : bool :=
  match environ w !! var with
  | Some s => String.eqb s EmptyString
  | None => true
  end.

Definition missing_vars (w : world) : list string := List.filter (not_set w) required_vars.

Definition get_db_connection : M nat :=
  w <- get_world ;;
  match missing_vars w with
  | _ :: _ =>
      raise (EnvironmentError ("Missing environment variables: " +:+ join ", " (missing_vars w)))
  | [] =>
      try_except pymysql_connect
        (fun e => match e with
                  | OperationalError _ =>
                      raise (ConnectionError ("Failed to connect to the database: " +:+ str e))
                  | _ => raise e
                  end)
  end.

(** The first connection is taken outside the [try] (line 115) and never
    closed by the function.  Its only reference is the local name
    [connection], which the [with] of line 117 binds to the second
    connection: the first object is then without reference and its
    destructor closes the socket.  When the second [get_db_connection()]
    raises, the name is not rebound and the first object lives as long as
    the frame, which the traceback of the exception holds until the view
    has handled it; no statement touches a connection in between, and the
    destructor is run here, where the exception leaves the function.
    [with get_db_connection() as connection] closes the second connection
    when the block is left (PyMySQL 1.x: [__enter__] returns the connection,
    [__exit__] calls [close()]). *)
Definition create_db_table : M unit :=
  connection0 <- get_db_connection ;;
  try_except
    (connection <- get_db_connection ;;
     Connection_del connection0 ;;
     try_finally
       (create_events_sql connection ;;
        commit connection)
       (close connection))
    (fun e =>
       Connection_del connection0 ;;
       raise (RuntimeError ("Table creation failed: " +:+ str e))).

(** [payload.get(key)] *)
Definition payload_get (key : string) (payload : json) : M json :=
  match payload with
  | JObj d => ret (dict_get key d)
  | v => raise (AttributeError ("'" +:+ type_name v +:+ "' object has no attribute 'get'"))
  end.

Definition insert_data_into_db (payload : json) : M unit :=
  create_db_table ;;
  title <- payload_get "title" payload ;;
  date <- payload_get "date" payload ;;
  description <- payload_get "description" payload ;;
  image_url <- payload_get "image_url" payload ;;
  location <- payload_get "location" payload ;;
  if negb (truthy title) || negb (truthy date) then
    raise (ValueError "Missing required fields: title, date")
  else
    connection <- get_db_connection ;;
    try_finally
      (alter_image_url_sql connection ;;
       insert_event_sql connection title description image_url date location ;;
       commit connection)
      (close connection).

Definition fetch_data_from_db : M (list json) :=
  create_db_table ;;
  connection <- get_db_connection ;;
  try_finally
    (select_events_sql connection)
    (close connection).

Definition write_last_payload_to_db (payload : json) : M unit :=
  create_db_table ;;
  connection <- get_db_connection ;;
  try_finally
    (create_debug_sql connection ;;
     replace_debug_sql connection (dumps payload) ;;
     commit connection)
    (close connection).

(** ** The routes *)

Inductive body : Type :=
| Jsonify (v : json)
| JsonifyDebugRow (payload_json : option string) (created_at : Z).

(** [field in payload] *)
Definition contains (field : string) (payload : json) : M bool :=
  match payload with
  | JObj d => ret (dict_has field d)
  | JArr l => ret (existsb (eq_str field) l)
  | JStr s => ret (substring_of field s)
  | v => raise (TypeError ("argument of type '" +:+ type_name v +:+ "' is not iterable"))
  end.

(** [all(field in payload for field in fields)] *)
Fixpoint all_in (fields : list string) (payload : json) : M bool :=
  match fields with
  | [] => ret true
  | f :: fs => b <- contains f payload ;; if b then all_in fs payload else ret false
  end.

Definition required_fields : list string := ["title"; "date"].

Definition health : M (Z * body) :=
  ret (200, Jsonify (JObj [("status", JStr "healthy")])).

(** What [request.get_json()] does with the body of the request at hand: it
    returns the decoded value ([None] for the JSON text [null]) or raises a
    werkzeug [HTTPException] ([text] is its [str]). *)
Inductive json_body : Type :=
| Decoded (payload : json)
| Undecodable (code : Z) (text : string).

Definition request_get_json (b : json_body) : M json :=
  match b with
  | Decoded payload => ret payload
  | Undecodable code text => raise (HTTPException code text)
  end.

Definition create_event (request : json_body) : M (Z * body) :=
  try_except
    (payload <- request_get_json request ;;
     write_last_payload_to_db payload ;;
     modify (set_LAST_EVENT_PAYLOAD payload) ;;
     rejected <- (if negb (truthy payload) then ret true
                  else b <- all_in required_fields payload ;; ret (negb b)) ;;
     if rejected : bool then
       ret (400, Jsonify (JObj [("error", JStr "Missing required fields: 'title' and 'date'")]))
     else
       insert_data_into_db payload ;;
       ret (201, Jsonify (JObj [("message", JStr "Event created successfully")])))
    (fun e => match e with
              | NotImplementedError _ => ret (501, Jsonify (JObj [("error", JStr (str e))]))
              | _ => ret (500, Jsonify (JObj [("error", JStr "During event creation");
                                              ("detail", JStr (str e))]))
              end).

Definition debug_last_event : M (Z * body) :=
  connection <- get_db_connection ;;
  try_finally
    (row <- select_debug_sql connection ;;
     ret (200, match row with
               | Some r => JsonifyDebugRow (payload_json r) (created_at r)
               | None => Jsonify (JObj [])
               end))
    (close connection).

Definition get_data : M (Z * body) :=
  try_except
    (data <- fetch_data_from_db ;;
     ret (200, Jsonify (JObj [("data", JArr data)])))
    (fun e => match e with
              | NotImplementedError _ => ret (501, Jsonify (JObj [("error", JStr (str e))]))
              | _ => ret (500, Jsonify (JObj [("error", JStr "During data retrieval");
                                              ("detail", JStr (str e))]))
              end).

(** ** Requests and replies *)

Inductive request : Type :=
| GET_health
| POST_events (b : json_body)
| GET_debug_last_event
| GET_data.

(** What comes out of a view: the response it returned, or the exception
    that escaped it. *)
Inductive reply : Type :=
| Reply (status : Z) (b : body)
| Unhandled (e : exn).

Definition view (r : request) : M (Z * body) :=
  match r with
  | GET_health => health
  | POST_events b => create_event b
  | GET_debug_last_event => debug_last_event
  | GET_data => get_data
  end.

Definition handle (r : request) (w : world) : reply * world :=
  match view r w with
  | (Ok (status, b), w') => (Reply status b, w')
  | (Raise e, w') => (Unhandled e, w')
  end.

(** Flask answers an exception that escapes a view with status 500. *)
Definition status_code (r : reply) : Z :=
  match r with
  | Reply status _ => status
  | Unhandled _ => 500
  end.

(** The body built by the application, if it built one. *)
Definition reply_body (r : reply) : option body :=
  match r with
  | Reply _ b => Some b
  | Unhandled _ => None
  end.

End Application.

(** ** A reference server

    A strict server that takes str and NULL only: a str for a text column is
    stored unchanged when it fits the column, a str for the [DATE] column
    must be a calendar date written [YYYY-MM-DD].  It serves as the concrete
    instance on which the properties below are exercised. *)

Definition digit_of (c : ascii) : option nat :=
  let n := N.to_nat (N_of_ascii c) in
  if (48 <=? n)%nat && (n <=? 57)%nat then Some (n - 48)%nat else None.

Fixpoint number_of (acc : nat) (s : string) : option nat :=
  match s with
  | EmptyString => Some acc
  | String c s' =>
      match digit_of c with
      | Some d => number_of (10 * acc + d)%nat s'
      | None => None
      end
  end.

Definition leap_year (y : nat) : bool :=
  ((y mod 4 =? 0) && negb (y mod 100 =? 0) || (y mod 400 =? 0))%nat.

Definition days_in_month (y m : nat) : nat :=
  match m with
  | 1 | 3 | 5 | 7 | 8 | 10 | 12 => 31
  | 4 | 6 | 9 | 11 => 30
  | 2 => if leap_year y then 29 else 28
  | _ => 0
  end%nat.

Definition parse_date (s : string) : option date :=
  if negb (String.length s =? 10)%nat then None
  else if negb (String.eqb (String.substring 4 1 s) "-" && String.eqb (String.substring 7 1 s) "-")
  then None
  else
    match number_of 0 (String.substring 0 4 s),
          number_of 0 (String.substring 5 2 s),
          number_of 0 (String.substring 8 2 s) with
    | Some y, Some m, Some d =>
        if ((1 <=? d) && (d <=? days_in_month y m))%nat then Some (Date y m d) else None
    | _, _, _ => None
    end.

Definition capacity (ty : coltype) : nat :=
  match ty with VARCHAR255 => 255 | TEXT => 256 * 256 - 1 end.

Definition strict_bind_text (ty : coltype) (v : json) : option (option string) :=
  match v with
  | JNull => Some None
  | JStr s => if (String.length s <=? capacity ty)%nat then Some (Some s) else None
  | _ => None
  end.

Definition strict_bind_date (v : json) : option date :=
  match v with
  | JStr s => parse_date s
  | _ => None
  end.

Definition strict_describe (e : dberror) : string :=
  match e with
  | NoSuchTable t => "Table '" +:+ t +:+ "' doesn't exist"
  | ColumnCannotBeNull c => "Column '" +:+ c +:+ "' cannot be null"
  | ValueRefused c => "Incorrect value for column '" +:+ c +:+ "'"
  | AlreadyClosed => "Already closed"
  | ConnectionClosed => "(0, '')"
  end.

Lemma strict_bind_text_str ty s c : strict_bind_text ty (JStr s) = Some c -> c = Some s.
Proof. cbn. destruct (_ <=? _)%nat; congruence. Qed.

#[export] Instance strict_engine : Engine :=
  {| bind_text := strict_bind_text;
     bind_date := strict_bind_date;
     describe := strict_describe;
     bind_text_null := fun _ => eq_refl;
     bind_text_str := strict_bind_text_str |}.

(** A configured process in front of a fresh, reachable store. *)
Definition configured : gmap string string :=
  list_to_map [("DB_HOST", "db.example.org"); ("DB_USER", "app");
               ("DB_PASSWORD", "secret"); ("DB_NAME", "events_db")].

Definition fresh : world :=
  World configured [] [] None None JNull 1700000000.

Definition unconfigured : world :=
  World (delete "DB_PASSWORD" configured) [] [] None None JNull 1700000000.

Definition title_only : list (string * json) := [("title", JStr "X")].

Definition empty_title : list (string * json) :=
  [("title", JStr EmptyString); ("date", JStr "2024-03-01")].

Definition empty_date : list (string * json) :=
  [("title", JStr "Launch"); ("date", JStr EmptyString)].

Definition launch : list (string * json) :=
  [("title", JStr "Launch"); ("date", JStr "2024-03-01"); ("location", JStr "Hall A")].

(** A date that is not in the calendar: the server refuses it. *)
Definition bad_date : list (string * json) :=
  [("title", JStr "Launch"); ("date", JStr "2024-02-30")].

(** A title with a character outside ASCII (the two bytes of its UTF-8
    form, 195 and 169) and the delete character U+007F. *)
Definition accented : string :=
  String (ascii_of_N 195) (String (ascii_of_N 169) (String (ascii_of_N 127) "cole")).

Definition three_events : world :=
  World configured [] []
        (Some (EventsTable TEXT 4
                 [EventRow 1 "first" None None (Date 2024 1 5) None;
                  EventRow 2 "second" None None (Date 2024 3 1) None;
                  EventRow 3 "third" None None (Date 2024 2 10) None]))
        None JNull 1700000000.

Definition catalogue : world :=
  World configured [] []
        (Some (EventsTable TEXT 3
                 [EventRow 1 "Fair" (Some "Spring fair") (Some "https://example.org/fair.png")
                           (Date 2024 5 9) (Some "Main square");
                  EventRow 2 "Talk" None None (Date 987 11 20) None]))
        None JNull 1700000000.

(** The server refuses the next connection. *)
Definition server_down : world :=
  World configured [Some (Operational "(2003, 'unreachable')")] [] None None JNull 1700000000.

(** The server takes one connection and refuses the one after. *)
Definition second_refused : world :=
  World configured [None; Some (Operational "(1040, 'Too many connections')")] [] None None
        JNull 1700000000.

(** The driver cannot authenticate: [pymysql.connect] raises a
    [RuntimeError], not an [OperationalError]. *)
Definition driver_fault : world :=
  World configured
        [Some (NotOperational "'cryptography' package is required for sha256_password or caching_sha2_password auth methods")]
        [] None None JNull 1700000000.

(** The process after a POST of [launch] and a restart: the module global
    is back to [None], the store is what the request left. *)
Definition restarted : world :=
  set_LAST_EVENT_PAYLOAD JNull (handle (POST_events (Decoded (JObj launch))) fresh).2.


(** ** Vocabulary of the properties *)

Section Properties.
Context `{Engine}.

(** The process is configured and the server takes the coming connections. *)
Definition available (w : world) : Prop :=
  missing_vars w = [] /\ refusals w = [].

(** The rows of the events table; a table that does not exist has none. *)
Definition event_rows (w : world) : list event_row :=
  match events w with
  | Some t => ev_rows t
  | None => []
  end.

(** The rows of the debug table. *)
Definition debug_rows (w : world) : list debug_row :=
  match debug_last_payload w with
  | Some rows => rows
  | None => []
  end.

Definition is_open (c : conn_state) : bool :=
  match c with Open => true | Closed | ForceClosed => false end.

(** Connections whose socket is still open: handed out, and released
    neither by [close()] nor by the destructor. *)
Definition open_connections (w : world) : nat :=
  length (List.filter is_open (connections w)).

(** What [CREATE TABLE IF NOT EXISTS events] leaves. *)
Definition ensured_events (t : option events_table) : events_table :=
  match t with
  | Some t => t
  | None => EventsTable VARCHAR255 1 []
  end.

(** [NotImplementedError] and nothing else. *)
Definition is_nie (e : exn) : Prop :=
  match e with NotImplementedError _ => True | _ => False end.

(** [m] never raises [NotImplementedError]. *)
Definition no_nie {A} (m : M A) : Prop :=
  forall w e, (m w).1 = Raise e -> ~ is_nie e.

(** Whatever [m] returns satisfies [Q]. *)
Definition returns {A} (Q : A -> Prop) (m : M A) : Prop :=
  forall w a, (m w).1 = Ok a -> Q a.

(** [m] keeps [I], whether it returns or raises. *)
Definition keeps {A} (I : world -> Prop) (m : M A) : Prop :=
  forall w, I w -> I (m w).2.

(** The debug table has at most one row, and its key is 1. *)
Definition debug_inv (w : world) : Prop :=
  (length (debug_rows w) <= 1)%nat /\ Forall (fun r => dbg_id r = 1) (debug_rows w).

(** The debug table is [X]. *)
Definition debug_is (X : option (list debug_row)) (w : world) : Prop :=
  debug_last_payload w = X.

(** The debug table is [X] and the server's clock shows [t]. *)
Definition debug_at (X : option (list debug_row)) (t : Z) (w : world) : Prop :=
  debug_last_payload w = X /\ now w = t.

(** The rows of the events table are [X]. *)
Definition rows_are (X : list event_row) (w : world) : Prop :=
  event_rows w = X.

(** Both tables exist. *)
Definition tables_exist (w : world) : Prop :=
  is_Some (events w) /\ is_Some (debug_last_payload w).

(** What [create_event] does once the payload is mirrored: the global, the
    presence check and the insertion. *)
Definition create_event_tail (payload : json) : M (Z * body) :=
  modify (set_LAST_EVENT_PAYLOAD payload) ;;
  rejected <- (if negb (truthy payload) then ret true
               else b <- all_in required_fields payload ;; ret (negb b)) ;;
  if rejected : bool then
    ret (400, Jsonify (JObj [("error", JStr "Missing required fields: 'title' and 'date'")]))
  else
    insert_data_into_db payload ;;
    ret (201, Jsonify (JObj [("message", JStr "Event created successfully")])).

(** The two [except] clauses of [create_event]. *)
Definition create_event_handler (e : exn) : M (Z * body) :=
  match e with
  | NotImplementedError _ => ret (501, Jsonify (JObj [("error", JStr (str e))]))
  | _ => ret (500, Jsonify (JObj [("error", JStr "During event creation");
                                  ("detail", JStr (str e))]))
  end.

Definition not_501 (r : Z * body) : Prop := r.1 <> 501.

(** The global holds [v]. *)
Definition last_is (v : json) (w : world) : Prop :=
  LAST_EVENT_PAYLOAD w = v.

(** The store after a successful run of the Payload Mirror from [w]. *)
Definition mirrored (c : option string) (w : world) : world :=
  World (environ w) (refusals w) (connections w ++ [ForceClosed; Closed; Closed])
        (Some (ensured_events (events w)))
        (Some (List.filter other_key (debug_rows w) ++ [DebugRow 1 c (now w)]))
        (LAST_EVENT_PAYLOAD w) (now w).

Definition missing_key (k : string) (d : list (string * json)) : Prop :=
  dict_has k d = false.

Definition empty_value (k : string) (d : list (string * json)) : Prop :=
  dict_has k d = true /\ truthy (dict_get k d) = false.

Definition bad_request : Z * body :=
  (400, Jsonify (JObj [("error", JStr "Missing required fields: 'title' and 'date'")])).

Definition created : Z * body :=
  (201, Jsonify (JObj [("message", JStr "Event created successfully")])).

(** A calendar value of MySQL's [DATE] type. *)
Definition in_range (d : date) : Prop :=
  (year d < 100 * 100 /\ month d <= 12 /\ day d <= 31)%nat.

(** The last decimal digit of [n], as a character. *)
Definition decimal_digit (n : nat) : ascii := ascii_of_nat (48 + n mod 10).

(** The text YYYY-MM-DD of a date, written out character by character:
    the four digits of the year, a dash, the two digits of the month, a
    dash, the two digits of the day. *)
Definition YYYY_MM_DD (d : date) : string :=
  String (decimal_digit (year d / 1000))
  (String (decimal_digit (year d / 100))
  (String (decimal_digit (year d / 10))
  (String (decimal_digit (year d))
  (String "-"
  (String (decimal_digit (month d / 10))
  (String (decimal_digit (month d))
  (String "-"
  (String (decimal_digit (day d / 10))
  (String (decimal_digit (day d)) EmptyString))))))))).

Definition is_digit (c : ascii) : bool :=
  match digit_of c with Some _ => true | None => false end.

Fixpoint all_digits (s : string) : bool :=
  match s with
  | EmptyString => true
  | String c s' => is_digit c && all_digits s'
  end.

(** Four digits, a dash, two digits, a dash, two digits. *)
Definition is_ymd (s : string) : bool :=
  (String.length s =? 10)%nat
  && all_digits (String.substring 0 4 s)
  && String.eqb (String.substring 4 1 s) "-"
  && all_digits (String.substring 5 2 s)
  && String.eqb (String.substring 7 1 s) "-"
  && all_digits (String.substring 8 2 s).

(** The states the store and the process go through: requests are served,
    and between two requests anything may happen that leaves the debug table
    alone (time passes, the process restarts, the server goes away, other
    clients write the events table). *)
Inductive reachable (w0 : world) : world -> Prop :=
| reach_start : reachable w0 w0
| reach_request w r : reachable w0 w -> reachable w0 (handle r w).2
| reach_drift w w' :
    reachable w0 w -> debug_last_payload w' = debug_last_payload w -> reachable w0 w'.

(** The text of the [EnvironmentError] of [get_db_connection]. *)
Definition missing_message (w : world) : string :=
  "Missing environment variables: " +:+ join ", " (missing_vars w).

(** The environment is [E] and the server has no refusal in store. *)
Definition config_is (E : gmap string string) (w : world) : Prop :=
  environ w = E /\ refusals w = [].

(** The statuses the application gives. *)
Definition post_status (r : Z * body) : Prop := r.1 = 201 \/ r.1 = 400 \/ r.1 = 500.
Definition get_status (r : Z * body) : Prop := r.1 = 200 \/ r.1 = 500.
Definition ok_status (r : Z * body) : Prop := r.1 = 200.

(** [m] started where [P] holds ends, when it returns [a], where [Q a]
    holds and, when it raises [e], where [R e] holds. *)
Definition hoare {A} (P : world -> Prop) (m : M A)
    (Q : A -> world -> Prop) (R : exn -> world -> Prop) : Prop :=
  forall w, P w -> match m w with
                   | (Ok a, w') => Q a w'
                   | (Raise e, w') => R e w'
                   end.

(** The rows of the events table are [X] plus one row. *)
Definition one_more (X : list event_row) (w : world) : Prop :=
  exists r, event_rows w = X ++ [r].

(** The same two facts, with connection [c] open. *)
Definition rows_unchanged (X : list event_row) (c : nat) (w : world) : Prop :=
  event_rows w = X /\ connections w !! c = Some Open.
Definition row_added (X : list event_row) (c : nat) (w : world) : Prop :=
  one_more X w /\ connections w !! c = Some Open.

(** Either the request is answered 201 and one row is added, or it is
    answered otherwise and the rows are the same. *)
Definition created_or_unchanged (X : list event_row) (r : Z * body) (w : world) : Prop :=
  (r.1 = 201 /\ one_more X w) \/ (r.1 <> 201 /\ event_rows w = X).

(** The presence check of [create_event] fails on [p]: a key is missing
    from the dict (for a list, an element; for a str, a substring). *)
Definition lacks_required (p : json) : Prop :=
  match p with
  | JObj d => missing_key "title" d \/ missing_key "date" d
  | JArr l => existsb (eq_str "title") l = false \/ existsb (eq_str "date") l = false
  | JStr s => substring_of "title" s = false \/ substring_of "date" s = false
  | _ => False
  end.

(** [p] is a dict with a non-empty title and a non-empty date. *)
Definition has_title_and_date (p : json) : Prop :=
  exists d, p = JObj d /\
            truthy (dict_get "title" d) = true /\ truthy (dict_get "date" d) = true.

(** What the statuses 400 and 201 say about the payload. *)
Definition status_tells (p : json) (r : Z * body) : Prop :=
  (r.1 = 400 -> truthy p = false \/ lacks_required p) /\
  (r.1 = 201 -> has_title_and_date p).

(** A character that [json.dumps] does not copy as it is. *)
Definition needs_escape (c : ascii) : bool :=
  let n := N_of_ascii c in ((n <? 32) || (n =? 34) || (n =? 92))%N.

Fixpoint plain (s : string) : bool :=
  match s with
  | EmptyString => true
  | String c s' => negb (needs_escape c) && plain s'
  end.

(** No character below U+0020.  These are the control characters that
    [json.dumps] escapes; U+007F and the control characters above it are not
    among them. *)
Fixpoint no_c0_control (s : string) : bool :=
  match s with
  | EmptyString => true
  | String c s' => negb (N_of_ascii c <? 32)%N && no_c0_control s'
  end.

(** The process after a run of requests, one after the other. *)
Fixpoint serve (rs : list request) (w : world) : world :=
  match rs with
  | [] => w
  | r :: rs' => serve rs' (handle r w).2
  end.

(** A connection whose socket is closed, by [close()] or by the destructor.
    No operation of the driver leads back to [Open]: a connection that is
    released has been released once. *)
Definition released (s : conn_state) : Prop := s = Closed \/ s = ForceClosed.

(** The connections [X] are there as they were, and among the handles
    handed out after them only those of [S] can be open. *)
Definition held (X : list conn_state) (S : list nat) (w : world) : Prop :=
  (exists l, connections w = X ++ l) /\
  Forall (fun c => (length X <= c)%nat) S /\
  forall i, (length X <= i)%nat -> connections w !! i = Some Open -> i ∈ S.

(** The row [r] with another key. *)
Definition with_id (id : Z) (r : event_row) : event_row :=
  EventRow id (ev_title r) (ev_description r) (ev_image_url r) (ev_date r) (ev_location r).

(** ** The driver on a connection just opened *)

Lemma list_insert_end {A} (l : list A) (x y : A) : <[length l := y]> (l ++ [x]) = l ++ [y].
Proof.
  rewrite insert_app_r_alt by lia.
  by rewrite Nat.sub_diag.
Qed.

Lemma check_open_fresh cs w :
  connections w = cs ++ [Open] -> check_open (length cs) w = (Ok tt, w).
Proof.
  intros E. unfold check_open. by rewrite E, list_lookup_middle.
Qed.

Lemma close_fresh cs w :
  connections w = cs ++ [Open] ->
  close (length cs) w = (Ok tt, set_connections (cs ++ [Closed]) w).
Proof.
  intros E. unfold close. rewrite E, list_lookup_middle by done.
  by rewrite list_insert_end.
Qed.

Lemma get_db_connection_ok w :
  available w ->
  get_db_connection w
  = (Ok (length (connections w)), set_connections (connections w ++ [Open]) w).
Proof.
  intros [Hm Hr]. unfold get_db_connection, bind, get_world.
  rewrite Hm. unfold try_except, pymysql_connect. by rewrite Hr.
Qed.

Lemma Connection_del_rebound cs w :
  connections w = cs ++ [Open; Open] ->
  Connection_del (length cs) w = (Ok tt, set_connections (cs ++ [ForceClosed; Open]) w).
Proof.
  intros E. unfold Connection_del. rewrite E, list_lookup_middle by done.
  by rewrite (insert_app_r_alt cs) by lia; rewrite Nat.sub_diag.
Qed.

Lemma create_db_table_ok w :
  available w ->
  create_db_table w
  = (Ok tt,
     World (environ w) (refusals w) (connections w ++ [ForceClosed; Closed])
           (Some (ensured_events (events w))) (debug_last_payload w)
           (LAST_EVENT_PAYLOAD w) (now w)).
Proof.
  intros Ha. unfold create_db_table, bind.
  rewrite get_db_connection_ok by done.
  unfold try_except, bind.
  rewrite get_db_connection_ok by (destruct Ha; by split).
  rewrite (Connection_del_rebound (connections w))
    by (cbn [connections set_connections]; by rewrite <- app_assoc).
  unfold try_finally, create_events_sql, commit, bind, modify.
  assert (Hlen : length (connections (set_connections (connections w ++ [Open]) w))
                 = length (connections w ++ [ForceClosed])).
  { cbn [connections set_connections]. rewrite !length_app. reflexivity. }
  rewrite Hlen.
  assert (Hcs : connections w ++ [ForceClosed; Open]
                = (connections w ++ [ForceClosed]) ++ [Open])
    by (by rewrite <- app_assoc).
  rewrite Hcs.
  destruct w as [env refs cs [t|] dbg last clock];
    cbn [events set_events set_connections connections].
  - rewrite (check_open_fresh (cs ++ [ForceClosed])) by done.
    cbn [events set_events set_connections connections].
    rewrite (check_open_fresh (cs ++ [ForceClosed])) by done.
    rewrite (close_fresh (cs ++ [ForceClosed])) by done.
    cbn. by rewrite <- app_assoc.
  - rewrite (check_open_fresh (cs ++ [ForceClosed])) by done.
    cbn [events set_events set_connections connections].
    rewrite (check_open_fresh (cs ++ [ForceClosed])) by done.
    rewrite (close_fresh (cs ++ [ForceClosed])) by done.
    cbn. by rewrite <- app_assoc.
Qed.

(** ** Rules for the three predicates *)

Lemma no_nie_ret {A} (a : A) : no_nie (ret a).
Proof. by intros w e. Qed.

Lemma no_nie_raise {A} e : ~ is_nie e -> no_nie (@raise A e).
Proof. intros He w e' [= <-]. done. Qed.

Lemma no_nie_bind {A B} (m : M A) (k : A -> M B) :
  no_nie m -> (forall a, no_nie (k a)) -> no_nie (bind m k).
Proof.
  intros Hm Hk w e. unfold bind. specialize (Hm w).
  destruct (m w) as [[a|e'] w']; cbn in *.
  - apply Hk.
  - intros [= <-]. by apply Hm.
Qed.

Lemma no_nie_try_except {A} (m : M A) (h : exn -> M A) :
  no_nie m -> (forall e, ~ is_nie e -> no_nie (h e)) -> no_nie (try_except m h).
Proof.
  intros Hm Hh w e. unfold try_except. specialize (Hm w).
  destruct (m w) as [[a|e'] w']; cbn in *; [done|].
  apply Hh. by apply Hm.
Qed.

Lemma no_nie_try_finally {A} (m : M A) (f : M unit) :
  no_nie m -> no_nie f -> no_nie (try_finally m f).
Proof.
  intros Hm Hf w e. unfold try_finally. specialize (Hm w).
  destruct (m w) as [r w']. specialize (Hf w').
  destruct (f w') as [[[]|e'] w'']; cbn in *.
  - apply Hm.
  - intros [= <-]. by apply Hf.
Qed.

Lemma returns_ret {A} (Q : A -> Prop) a : Q a -> returns Q (ret a).
Proof. by intros Ha w a' [= <-]. Qed.

Lemma returns_raise {A} (Q : A -> Prop) e : returns Q (raise e).
Proof. by intros w a. Qed.

Lemma returns_bind {A B} (Q : B -> Prop) (m : M A) (k : A -> M B) :
  (forall a, returns Q (k a)) -> returns Q (bind m k).
Proof.
  intros Hk w b. unfold bind.
  destruct (m w) as [[a|e] w']; cbn; [apply Hk | done].
Qed.

Lemma returns_try_except_nie {A} (Q : A -> Prop) (m : M A) (h : exn -> M A) :
  no_nie m -> returns Q m -> (forall e, ~ is_nie e -> returns Q (h e)) ->
  returns Q (try_except m h).
Proof.
  intros Hn Hm Hh w a. unfold try_except. specialize (Hm w). specialize (Hn w).
  destruct (m w) as [[a'|e] w']; cbn in *; [apply Hm|].
  apply Hh. by apply Hn.
Qed.

Lemma returns_try_finally {A} (Q : A -> Prop) (m : M A) (f : M unit) :
  returns Q m -> returns Q (try_finally m f).
Proof.
  intros Hm w a. unfold try_finally. specialize (Hm w).
  destruct (m w) as [r w'].
  destruct (f w') as [[[]|e'] w'']; cbn in *; [apply Hm | done].
Qed.

Lemma keeps_ret {A} I (a : A) : keeps I (ret a).
Proof. by intros w. Qed.

Lemma keeps_raise {A} I e : keeps I (@raise A e).
Proof. by intros w. Qed.

Lemma keeps_bind {A B} I (m : M A) (k : A -> M B) :
  keeps I m -> (forall a, keeps I (k a)) -> keeps I (bind m k).
Proof.
  intros Hm Hk w Hw. unfold bind. specialize (Hm w Hw).
  destruct (m w) as [[a|e] w']; cbn in *; [by apply Hk | done].
Qed.

Lemma keeps_try_except {A} I (m : M A) (h : exn -> M A) :
  keeps I m -> (forall e, keeps I (h e)) -> keeps I (try_except m h).
Proof.
  intros Hm Hh w Hw. unfold try_except. specialize (Hm w Hw).
  destruct (m w) as [[a|e] w']; cbn in *; [done | by apply Hh].
Qed.

Lemma keeps_try_finally {A} I (m : M A) (f : M unit) :
  keeps I m -> keeps I f -> keeps I (try_finally m f).
Proof.
  intros Hm Hf w Hw. unfold try_finally. specialize (Hm w Hw).
  destruct (m w) as [r w']. specialize (Hf w' Hm).
  by destruct (f w') as [[[]|e'] w''].
Qed.

(** A primitive is settled by running it on every case of the world; a
    compound computation is taken apart along its structure. *)
Ltac primitive :=
  let w := fresh "w" in
  unfold no_nie, returns, keeps;
  intros w;
  repeat match goal with
         | |- context [pymysql_connect] => unfold pymysql_connect
         | |- context [close] => unfold close
         | |- context [Connection_del] => unfold Connection_del
         | |- context [commit] => unfold commit
         | |- context [check_open] => unfold check_open
         | |- context [create_events_sql] => unfold create_events_sql
         | |- context [alter_image_url_sql] => unfold alter_image_url_sql
         | |- context [insert_event_sql] => unfold insert_event_sql
         | |- context [select_events_sql] => unfold select_events_sql
         | |- context [create_debug_sql] => unfold create_debug_sql
         | |- context [replace_debug_sql] => unfold replace_debug_sql
         | |- context [select_debug_sql] => unfold select_debug_sql
         | |- context [new_event_row] => unfold new_event_row
         | |- context [get_world] => unfold get_world
         | |- context [modify] => unfold modify
         | |- context [bind] => unfold bind
         end;
  intros; repeat case_match; simplify_eq/=; auto.

Create HintDb nie.
Create HintDb keeps.

Ltac split_match :=
  match goal with
  | |- context [match ?x with _ => _ end] => destruct x
  end.

Ltac step_no_nie :=
  first
    [ solve [eauto with nie]
    | apply no_nie_ret
    | apply no_nie_raise; solve [auto]
    | apply no_nie_bind; [| intros ?]
    | apply no_nie_try_except; [| intros ? ?]
    | apply no_nie_try_finally
    | split_match ].

Ltac step_keeps :=
  first
    [ solve [eauto with keeps]
    | apply keeps_ret
    | apply keeps_raise
    | apply keeps_bind; [| intros ?]
    | apply keeps_try_except; [| intros ?]
    | apply keeps_try_finally
    | split_match ].

(** ** No [NotImplementedError] *)

Lemma no_nie_connect : no_nie pymysql_connect.
Proof. primitive. Qed.

Lemma no_nie_close c : no_nie (close c).
Proof. primitive. Qed.

Lemma no_nie_Connection_del c : no_nie (Connection_del c).
Proof. primitive. Qed.

Lemma no_nie_check_open c : no_nie (check_open c).
Proof. primitive. Qed.

Lemma no_nie_create_events c : no_nie (create_events_sql c).
Proof. primitive. Qed.

Lemma no_nie_alter c : no_nie (alter_image_url_sql c).
Proof. primitive. Qed.

Lemma no_nie_insert c t de im da lo : no_nie (insert_event_sql c t de im da lo).
Proof. primitive. Qed.

Lemma no_nie_select_events c : no_nie (select_events_sql c).
Proof. primitive. Qed.

Lemma no_nie_create_debug c : no_nie (create_debug_sql c).
Proof. primitive. Qed.

Lemma no_nie_replace_debug c s : no_nie (replace_debug_sql c s).
Proof. primitive. Qed.

Lemma no_nie_select_debug c : no_nie (select_debug_sql c).
Proof. primitive. Qed.

#[local] Hint Resolve no_nie_connect no_nie_close no_nie_Connection_del no_nie_check_open
  no_nie_create_events
  no_nie_alter no_nie_insert no_nie_select_events no_nie_create_debug
  no_nie_replace_debug no_nie_select_debug : nie.

Lemma no_nie_get_world : no_nie get_world.
Proof. primitive. Qed.

Lemma no_nie_modify f : no_nie (modify f).
Proof. primitive. Qed.

#[local] Hint Resolve no_nie_get_world no_nie_modify : nie.

Lemma no_nie_get_db_connection : no_nie get_db_connection.
Proof. unfold get_db_connection. repeat step_no_nie. Qed.

#[local] Hint Resolve no_nie_get_db_connection : nie.

Lemma no_nie_create_db_table : no_nie create_db_table.
Proof. unfold create_db_table, commit. repeat step_no_nie. Qed.

#[local] Hint Resolve no_nie_create_db_table : nie.

Lemma no_nie_payload_get k p : no_nie (payload_get k p).
Proof. unfold payload_get. repeat step_no_nie. Qed.

Lemma no_nie_contains k p : no_nie (contains k p).
Proof. unfold contains. repeat step_no_nie. Qed.

#[local] Hint Resolve no_nie_payload_get no_nie_contains : nie.

Lemma no_nie_all_in fields p : no_nie (all_in fields p).
Proof. induction fields; cbn [all_in]; repeat step_no_nie. Qed.

Lemma no_nie_insert_data_into_db p : no_nie (insert_data_into_db p).
Proof. unfold insert_data_into_db, commit. repeat step_no_nie. Qed.

Lemma no_nie_fetch_data_from_db : no_nie fetch_data_from_db.
Proof. unfold fetch_data_from_db. repeat step_no_nie. Qed.

Lemma no_nie_write_last_payload_to_db p : no_nie (write_last_payload_to_db p).
Proof. unfold write_last_payload_to_db, commit. repeat step_no_nie. Qed.

#[local] Hint Resolve no_nie_all_in no_nie_insert_data_into_db no_nie_fetch_data_from_db
  no_nie_write_last_payload_to_db : nie.

Lemma no_nie_request_get_json b : no_nie (request_get_json b).
Proof. unfold request_get_json. repeat step_no_nie. Qed.

#[local] Hint Resolve no_nie_request_get_json : nie.

Ltac step_returns :=
  first
    [ apply returns_ret; solve [cbn; lia]
    | apply returns_raise
    | apply returns_bind; intros ?
    | apply returns_try_finally
    | split_match ].

Lemma create_event_not_501 b : returns not_501 (create_event b).
Proof.
  unfold create_event, not_501.
  apply returns_try_except_nie.
  - repeat step_no_nie.
  - repeat step_returns.
  - intros e He. destruct e; try (apply returns_ret; cbn; lia). by destruct He.
Qed.

Lemma get_data_not_501 : returns not_501 get_data.
Proof.
  unfold get_data, not_501.
  apply returns_try_except_nie.
  - repeat step_no_nie.
  - repeat step_returns.
  - intros e He. destruct e; try (apply returns_ret; cbn; lia). by destruct He.
Qed.

Lemma debug_last_event_not_501 : returns not_501 debug_last_event.
Proof. unfold debug_last_event, not_501. repeat step_returns. Qed.

(** C10. [insert_data_into_db] and [fetch_data_from_db] never raise
    [NotImplementedError], in no state of the process and the store and for
    no payload; so the [except NotImplementedError] branches of the two
    views are never taken, and no request, on any route, is answered with
    status 501. *)
Theorem no_request_gets_501 :
  (forall payload w e, (insert_data_into_db payload w).1 = Raise e -> ~ is_nie e) /\
  (forall w e, (fetch_data_from_db w).1 = Raise e -> ~ is_nie e) /\
  (forall r w, status_code (handle r w).1 <> 501).
Proof.
  split; [exact no_nie_insert_data_into_db|].
  split; [exact no_nie_fetch_data_from_db|].
  intros r w. unfold handle.
  assert (Hv : returns not_501 (view r)).
  { destruct r; cbn [view].
    - unfold health. apply returns_ret. unfold not_501. cbn. lia.
    - apply create_event_not_501.
    - apply debug_last_event_not_501.
    - apply get_data_not_501. }
  specialize (Hv w).
  destruct (view r w) as [[[s b]|e] w']; cbn in *.
  - by apply (Hv (s, b)).
  - lia.
Qed.

(** ** The debug table keeps at most the row of key 1 *)

Lemma filter_other_key_nil rows :
  Forall (fun r => dbg_id r = 1) rows -> List.filter other_key rows = [].
Proof.
  induction 1 as [|r rows Hr _ IH]; [done|].
  cbn. unfold other_key at 1. rewrite Hr. done.
Qed.

Ltac table_primitive := unfold debug_inv, debug_rows, event_rows; primitive.

Lemma debug_inv_connect : keeps debug_inv pymysql_connect.
Proof. table_primitive. Qed.

Lemma debug_inv_close c : keeps debug_inv (close c).
Proof. table_primitive. Qed.

Lemma debug_inv_Connection_del c : keeps debug_inv (Connection_del c).
Proof. table_primitive. Qed.

Lemma debug_inv_check_open c : keeps debug_inv (check_open c).
Proof. table_primitive. Qed.

Lemma debug_inv_create_events c : keeps debug_inv (create_events_sql c).
Proof. table_primitive. Qed.

Lemma debug_inv_alter c : keeps debug_inv (alter_image_url_sql c).
Proof. table_primitive. Qed.

Lemma debug_inv_insert c t de im da lo : keeps debug_inv (insert_event_sql c t de im da lo).
Proof. table_primitive. Qed.

Lemma debug_inv_select_events c : keeps debug_inv (select_events_sql c).
Proof. table_primitive. Qed.

Lemma debug_inv_create_debug c : keeps debug_inv (create_debug_sql c).
Proof. table_primitive. Qed.

Lemma debug_inv_replace_debug c s : keeps debug_inv (replace_debug_sql c s).
Proof.
  table_primitive.
  match goal with H : _ /\ Forall _ _ |- _ => destruct H as [_ Hall] end.
  rewrite (filter_other_key_nil _ Hall). cbn. split; [lia|]. by repeat constructor.
Qed.

Lemma debug_inv_select_debug c : keeps debug_inv (select_debug_sql c).
Proof. table_primitive. Qed.

Lemma debug_inv_get_world : keeps debug_inv get_world.
Proof. table_primitive. Qed.

Lemma debug_inv_set_LAST_EVENT_PAYLOAD v : keeps debug_inv (modify (set_LAST_EVENT_PAYLOAD v)).
Proof. table_primitive. Qed.

#[local] Hint Resolve debug_inv_connect debug_inv_close debug_inv_Connection_del
  debug_inv_check_open
  debug_inv_create_events debug_inv_alter debug_inv_insert debug_inv_select_events
  debug_inv_create_debug debug_inv_replace_debug debug_inv_select_debug
  debug_inv_get_world debug_inv_set_LAST_EVENT_PAYLOAD : keeps.

Lemma debug_inv_get_db_connection : keeps debug_inv get_db_connection.
Proof. unfold get_db_connection. repeat step_keeps. Qed.

#[local] Hint Resolve debug_inv_get_db_connection : keeps.

Lemma debug_inv_create_db_table : keeps debug_inv create_db_table.
Proof. unfold create_db_table, commit. repeat step_keeps. Qed.

#[local] Hint Resolve debug_inv_create_db_table : keeps.

Lemma debug_inv_all_in fields p : keeps debug_inv (all_in fields p).
Proof. induction fields; cbn [all_in]; unfold contains; repeat step_keeps. Qed.

#[local] Hint Resolve debug_inv_all_in : keeps.

Lemma debug_inv_view r : keeps debug_inv (view r).
Proof.
  destruct r; cbn [view];
    unfold health, create_event, debug_last_event, get_data, request_get_json,
      write_last_payload_to_db, insert_data_into_db, fetch_data_from_db, payload_get, commit;
    repeat step_keeps.
Qed.

Lemma debug_inv_handle r w : debug_inv w -> debug_inv (handle r w).2.
Proof.
  intros Hw. unfold handle. pose proof (debug_inv_view r w Hw) as Hv.
  by destruct (view r w) as [[[s b]|e] w'].
Qed.

(** ** The operations on an available store *)

Lemma available_frame w w' :
  environ w' = environ w -> refusals w' = refusals w -> available w -> available w'.
Proof.
  intros He Hr [Hm Hf]. split; [|congruence].
  rewrite <- Hm. unfold missing_vars. apply filter_ext.
  intros v. unfold not_set. by rewrite He.
Qed.

Ltac frame := eapply available_frame; [| | eassumption]; reflexivity.

Lemma lookup_end {A} (l : list A) (x : A) : (l ++ [x]) !! length l = Some x.
Proof. by apply list_lookup_middle. Qed.

(** Symbolic execution on an available store: the calls already
    characterised are rewritten, the driver's checks on a handle just opened
    are resolved, the rest is computation on the record. *)
Ltac run :=
  repeat first
    [ rewrite create_db_table_ok by (first [assumption | frame])
    | rewrite get_db_connection_ok by (first [assumption | frame])
    | rewrite lookup_end
    | rewrite list_insert_end
    | progress cbn [fst snd environ refusals connections events debug_last_payload
                    LAST_EVENT_PAYLOAD now set_refusals set_connections set_events
                    set_debug_last_payload set_LAST_EVENT_PAYLOAD debug_rows event_rows
                    ensured_events image_url_type auto_increment ev_rows] ].

Ltac unfold_driver :=
  unfold try_finally, try_except, create_events_sql, alter_image_url_sql, insert_event_sql,
    select_events_sql, create_debug_sql, replace_debug_sql, select_debug_sql, commit,
    check_open, close, bind, ret, raise, modify, get_world.

Lemma write_last_payload_to_db_ok w payload c :
  available w ->
  bind_text TEXT (JStr (dumps payload)) = Some c ->
  write_last_payload_to_db payload w
  = (Ok tt,
     World (environ w) (refusals w) (connections w ++ [ForceClosed; Closed; Closed])
           (Some (ensured_events (events w)))
           (Some (List.filter other_key (debug_rows w) ++ [DebugRow 1 c (now w)]))
           (LAST_EVENT_PAYLOAD w) (now w)).
Proof.
  intros Ha Hc. unfold write_last_payload_to_db. unfold_driver.
  destruct w as [env refs cs ev [rows|] last clock]; run; rewrite Hc; run;
    by rewrite <- app_assoc.
Qed.

Lemma write_last_payload_to_db_refused w payload :
  available w ->
  bind_text TEXT (JStr (dumps payload)) = None ->
  write_last_payload_to_db payload w
  = (Raise (MySQLError (ValueRefused "payload_json")),
     World (environ w) (refusals w) (connections w ++ [ForceClosed; Closed; Closed])
           (Some (ensured_events (events w))) (Some (debug_rows w))
           (LAST_EVENT_PAYLOAD w) (now w)).
Proof.
  intros Ha Hc. unfold write_last_payload_to_db. unfold_driver.
  destruct w as [env refs cs ev [rows|] last clock]; run; rewrite Hc; run;
    by rewrite <- app_assoc.
Qed.

Lemma fetch_data_from_db_ok w :
  available w ->
  fetch_data_from_db w
  = (Ok (map row_dict (merge_sort by_date (event_rows w))),
     World (environ w) (refusals w) (connections w ++ [ForceClosed; Closed; Closed])
           (Some (ensured_events (events w))) (debug_last_payload w)
           (LAST_EVENT_PAYLOAD w) (now w)).
Proof.
  intros Ha. unfold fetch_data_from_db. unfold_driver.
  destruct w as [env refs cs [t|] dbg last clock]; run; by rewrite <- app_assoc.
Qed.

Lemma insert_data_into_db_ok w d r :
  available w ->
  truthy (dict_get "title" d) = true ->
  truthy (dict_get "date" d) = true ->
  new_event_row (EventsTable TEXT (auto_increment (ensured_events (events w)))
                             (event_rows w))
                (dict_get "title" d) (dict_get "description" d) (dict_get "image_url" d)
                (dict_get "date" d) (dict_get "location" d) = Ok r ->
  insert_data_into_db (JObj d) w
  = (Ok tt,
     World (environ w) (refusals w) (connections w ++ [ForceClosed; Closed; Closed])
           (Some (EventsTable TEXT (auto_increment (ensured_events (events w)) + 1)
                              (event_rows w ++ [r])))
           (debug_last_payload w) (LAST_EVENT_PAYLOAD w) (now w)).
Proof.
  intros Ha Ht Hd Hr. unfold insert_data_into_db, payload_get. unfold_driver.
  run. rewrite Ht, Hd. cbn [negb orb].
  destruct w as [env refs cs [t|] dbg last clock];
    cbn [events event_rows ensured_events auto_increment ev_rows] in Hr;
    run; rewrite Hr; run; by rewrite <- app_assoc.
Qed.

Lemma insert_data_into_db_empty w d :
  available w ->
  truthy (dict_get "title" d) = false \/ truthy (dict_get "date" d) = false ->
  insert_data_into_db (JObj d) w
  = (Raise (ValueError "Missing required fields: title, date"),
     World (environ w) (refusals w) (connections w ++ [ForceClosed; Closed])
           (Some (ensured_events (events w))) (debug_last_payload w)
           (LAST_EVENT_PAYLOAD w) (now w)).
Proof.
  intros Ha He. unfold insert_data_into_db, payload_get. unfold_driver. run.
  by destruct He as [-> | ->]; destruct (truthy _).
Qed.

Lemma debug_last_event_ok w rows :
  available w ->
  debug_last_payload w = Some rows ->
  debug_last_event w
  = (Ok (200, match List.find (fun r => dbg_id r =? 1) rows with
              | Some r => JsonifyDebugRow (payload_json r) (created_at r)
              | None => Jsonify (JObj [])
              end),
     set_connections (connections w ++ [Closed]) w).
Proof.
  intros Ha Hd. unfold debug_last_event. unfold_driver. run. rewrite Hd. run. done.
Qed.

Lemma debug_last_event_no_table w :
  available w ->
  debug_last_payload w = None ->
  debug_last_event w
  = (Raise (MySQLError (NoSuchTable "debug_last_payload")),
     set_connections (connections w ++ [Closed]) w).
Proof.
  intros Ha Hd. unfold debug_last_event. unfold_driver. run. rewrite Hd. run. done.
Qed.

(** ** What the computations leave alone *)

Ltac leaf :=
  unfold debug_is, debug_at, rows_are, tables_exist, event_rows, payload_get, contains, is_Some;
  primitive;
  repeat match goal with
         | H : _ /\ _ |- _ => destruct H
         | H : ex _ |- _ => destruct H
         end;
  simplify_eq; eauto.

Ltac keeps_auto :=
  repeat first
    [ solve [eauto with keeps]
    | apply keeps_ret
    | apply keeps_raise
    | apply keeps_bind; [| intros ?]
    | apply keeps_try_except; [| intros ?]
    | apply keeps_try_finally
    | split_match
    | solve [leaf] ].

Ltac unfold_app :=
  unfold health, create_event, create_event_tail, create_event_handler, debug_last_event,
    get_data, request_get_json, write_last_payload_to_db, insert_data_into_db,
    fetch_data_from_db, create_db_table, get_db_connection, commit.

Lemma debug_is_all_in X fields p : keeps (debug_is X) (all_in fields p).
Proof. induction fields; cbn [all_in]; keeps_auto. Qed.

Lemma rows_are_all_in X fields p : keeps (rows_are X) (all_in fields p).
Proof. induction fields; cbn [all_in]; keeps_auto. Qed.

Lemma tables_exist_all_in fields p : keeps tables_exist (all_in fields p).
Proof. induction fields; cbn [all_in]; keeps_auto. Qed.

#[local] Hint Resolve debug_is_all_in rows_are_all_in tables_exist_all_in : keeps.

Lemma debug_is_create_event_tail X p :
  keeps (debug_is X) (try_except (create_event_tail p) create_event_handler).
Proof. unfold_app. keeps_auto. Qed.

Lemma tables_exist_create_event_tail p :
  keeps tables_exist (try_except (create_event_tail p) create_event_handler).
Proof. unfold_app. keeps_auto. Qed.

Lemma rows_are_write_last_payload_to_db X p :
  keeps (rows_are X) (write_last_payload_to_db p).
Proof. unfold_app. keeps_auto. Qed.

Lemma bind_ret_l {A B} (a : A) (k : A -> M B) : bind (ret a) k = k a.
Proof. reflexivity. Qed.

Lemma rows_are_insert_rejected X d :
  truthy (dict_get "title" d) = false \/ truthy (dict_get "date" d) = false ->
  keeps (rows_are X) (insert_data_into_db (JObj d)).
Proof.
  intros Hf. unfold insert_data_into_db, payload_get.
  apply keeps_bind; [unfold_app; keeps_auto|]. intros _.
  rewrite !bind_ret_l.
  replace (negb (truthy (dict_get "title" d)) || negb (truthy (dict_get "date" d)))
    with true by (destruct Hf as [-> | ->]; by destruct (truthy _)).
  apply keeps_raise.
Qed.

Lemma rows_are_create_event_rejected X d :
  truthy (dict_get "title" d) = false \/ truthy (dict_get "date" d) = false ->
  keeps (rows_are X) (create_event (Decoded (JObj d))).
Proof.
  intros Hf. pose proof (rows_are_insert_rejected X d Hf).
  unfold create_event, request_get_json. rewrite bind_ret_l.
  pose proof (rows_are_write_last_payload_to_db X (JObj d)).
  keeps_auto.
Qed.

(** ** [create_event] on an available store *)

Lemma dict_get_missing k d : dict_has k d = false -> dict_get k d = JNull.
Proof.
  induction d as [|[k' v] d IH]; cbn; [done|].
  destruct (String.eqb k k'); cbn; [done | apply IH].
Qed.

Lemma truthy_dict_has k d : truthy (dict_get k d) = true -> dict_has k d = true.
Proof.
  intros Ht. destruct (dict_has k d) eqn:E; [done|].
  by rewrite (dict_get_missing _ _ E) in Ht.
Qed.

Lemma create_event_eq p :
  create_event (Decoded p)
  = try_except (write_last_payload_to_db p ;; create_event_tail p) create_event_handler.
Proof. reflexivity. Qed.

Lemma create_event_mirrored w p c :
  available w ->
  bind_text TEXT (JStr (dumps p)) = Some c ->
  create_event (Decoded p) w
  = try_except (create_event_tail p) create_event_handler (mirrored c w).
Proof.
  intros Ha Hc. rewrite create_event_eq. unfold try_except at 1, bind at 1.
  by rewrite (write_last_payload_to_db_ok w p c).
Qed.

Lemma last_is_all_in v fields p : keeps (last_is v) (all_in fields p).
Proof. induction fields; cbn [all_in]; unfold last_is; keeps_auto. Qed.

#[local] Hint Resolve last_is_all_in : keeps.

Lemma last_is_insert_data_into_db v p : keeps (last_is v) (insert_data_into_db p).
Proof. unfold_app. unfold last_is. keeps_auto. Qed.

Lemma create_event_tail_sets_global p w :
  LAST_EVENT_PAYLOAD (try_except (create_event_tail p) create_event_handler w).2 = p.
Proof.
  pose proof (last_is_insert_data_into_db p p) as Hi.
  assert (Hk : keeps (last_is p)
                 (try_except
                    (rejected <- (if negb (truthy p) then ret true
                                  else b <- all_in required_fields p ;; ret (negb b)) ;;
                     if rejected : bool then ret bad_request
                     else insert_data_into_db p ;; ret created)
                    create_event_handler)).
  { unfold create_event_handler. keeps_auto. }
  apply (Hk (set_LAST_EVENT_PAYLOAD p w)). reflexivity.
Qed.

Lemma create_event_tail_rejected d w :
  missing_key "title" d \/ missing_key "date" d ->
  create_event_tail (JObj d) w = (Ok bad_request, set_LAST_EVENT_PAYLOAD (JObj d) w).
Proof.
  unfold missing_key. intros Hm.
  unfold create_event_tail, modify, bind at 1 2.
  destruct d as [|kv d]; [done|].
  cbn [truthy negb all_in required_fields contains bind ret].
  destruct Hm as [-> | ->]; [done|].
  by destruct (dict_has "title" _).
Qed.

Lemma create_event_tail_created d w r :
  available w ->
  truthy (dict_get "title" d) = true ->
  truthy (dict_get "date" d) = true ->
  new_event_row (EventsTable TEXT (auto_increment (ensured_events (events w)))
                             (event_rows w))
                (dict_get "title" d) (dict_get "description" d) (dict_get "image_url" d)
                (dict_get "date" d) (dict_get "location" d) = Ok r ->
  create_event_tail (JObj d) w
  = (Ok created,
     World (environ w) (refusals w) (connections w ++ [ForceClosed; Closed; Closed])
           (Some (EventsTable TEXT (auto_increment (ensured_events (events w)) + 1)
                              (event_rows w ++ [r])))
           (debug_last_payload w) (JObj d) (now w)).
Proof.
  intros Ha Ht Hd Hr.
  unfold create_event_tail, modify, bind at 1 2.
  assert (Hne : truthy (JObj d) = true).
  { destruct d; [|done]. by cbn in Ht. }
  rewrite Hne.
  cbn [negb all_in required_fields contains bind ret].
  rewrite (truthy_dict_has _ _ Ht), (truthy_dict_has _ _ Hd).
  unfold bind, ret. cbn [negb]. cbn beta iota.
  rewrite (insert_data_into_db_ok _ d r); [done | frame | done | done | exact Hr].
Qed.

(** ** Requests *)

Lemma handle_world r w : (handle r w).2 = (view r w).2.
Proof. unfold handle. by destruct (view r w) as [[[s b]|e] w']. Qed.

Lemma handle_returns r w s b w' :
  view r w = (Ok (s, b), w') -> handle r w = (Reply s b, w').
Proof. unfold handle. by intros ->. Qed.

Lemma handle_raises r w e w' :
  view r w = (Raise e, w') -> handle r w = (Unhandled e, w').
Proof. unfold handle. by intros ->. Qed.

Lemma event_rows_ensured w : ev_rows (ensured_events (events w)) = event_rows w.
Proof. unfold event_rows. by destruct (events w). Qed.

Lemma accepted_text s : bind_text TEXT (JStr s) <> None -> bind_text TEXT (JStr s) = Some (Some s).
Proof.
  destruct (bind_text TEXT (JStr s)) as [c|] eqn:E; [|done].
  intros _. by rewrite (bind_text_str _ _ _ E).
Qed.

(** C1. A POST /events request whose payload is an object that lacks the
    [title] key or the [date] key, or carries an empty value for one of
    them, adds no row to the events table, whatever the state of the
    process and the store.  When a key is missing and the Payload Mirror has
    done its write (the store is configured, reachable and takes the
    serialised payload), the response is the 400 of the presence check. *)
Theorem rejected_payload_adds_no_row w d :
  missing_key "title" d \/ missing_key "date" d \/
  empty_value "title" d \/ empty_value "date" d ->
  event_rows (handle (POST_events (Decoded (JObj d))) w).2 = event_rows w /\
  (available w ->
   bind_text TEXT (JStr (dumps (JObj d))) <> None ->
   missing_key "title" d \/ missing_key "date" d ->
   (handle (POST_events (Decoded (JObj d))) w).1
   = Reply 400 (Jsonify (JObj [("error", JStr "Missing required fields: 'title' and 'date'")]))).
Proof.
  intros Hd. split.
  - rewrite handle_world. cbn [view].
    apply (rows_are_create_event_rejected (event_rows w) d); [|done].
    unfold missing_key, empty_value in Hd.
    destruct Hd as [Hm | [Hm | [[_ He] | [_ He]]]]; auto;
      rewrite (dict_get_missing _ _ Hm); auto.
  - intros Ha Hc Hm. apply accepted_text in Hc.
    erewrite handle_returns; [reflexivity|]. cbn [view].
    rewrite (create_event_mirrored w _ _ Ha Hc). unfold try_except.
    by rewrite create_event_tail_rejected.
Qed.

(** C2. On a configured and reachable store that takes the serialised
    payload, a POST /events request whose payload is an object with a
    non-empty [title] and a non-empty [date], all five values being taken by
    the server, is answered 201 and appends exactly one row to the events
    table: the row holds what the server makes of the five submitted
    values, a submitted str is stored as it is, and an optional field that
    is absent is stored as NULL. *)
Theorem valid_payload_inserts_one_row w d t de im da lo :
  available w ->
  bind_text TEXT (JStr (dumps (JObj d))) <> None ->
  truthy (dict_get "title" d) = true ->
  truthy (dict_get "date" d) = true ->
  bind_text VARCHAR255 (dict_get "title" d) = Some (Some t) ->
  bind_text TEXT (dict_get "description" d) = Some de ->
  bind_text TEXT (dict_get "image_url" d) = Some im ->
  bind_date (dict_get "date" d) = Some da ->
  bind_text VARCHAR255 (dict_get "location" d) = Some lo ->
  (handle (POST_events (Decoded (JObj d))) w).1
  = Reply 201 (Jsonify (JObj [("message", JStr "Event created successfully")])) /\
  event_rows (handle (POST_events (Decoded (JObj d))) w).2
  = event_rows w ++ [EventRow (auto_increment (ensured_events (events w))) t de im da lo] /\
  (forall s, dict_get "title" d = JStr s -> t = s) /\
  (forall s, dict_get "description" d = JStr s -> de = Some s) /\
  (forall s, dict_get "image_url" d = JStr s -> im = Some s) /\
  (forall s, dict_get "location" d = JStr s -> lo = Some s) /\
  (missing_key "description" d -> de = None) /\
  (missing_key "image_url" d -> im = None) /\
  (missing_key "location" d -> lo = None).
Proof.
  intros Ha Hc Ht Hd Bt Bde Bim Bda Blo. apply accepted_text in Hc.
  assert (Hv : view (POST_events (Decoded (JObj d))) w
               = (Ok created,
                  World (environ w) (refusals w)
                        ((connections w ++ [ForceClosed; Closed; Closed]) ++ [ForceClosed; Closed; Closed])
                        (Some (EventsTable TEXT (auto_increment (ensured_events (events w)) + 1)
                                 (event_rows w
                                  ++ [EventRow (auto_increment (ensured_events (events w)))
                                               t de im da lo])))
                        (Some (List.filter other_key (debug_rows w)
                               ++ [DebugRow 1 (Some (dumps (JObj d))) (now w)]))
                        (JObj d) (now w))).
  { cbn [view]. rewrite (create_event_mirrored w _ _ Ha Hc). unfold try_except.
    rewrite (create_event_tail_created _ _
               (EventRow (auto_increment (ensured_events (events w))) t de im da lo));
      [| by frame | done | done |].
    - cbn [fst snd mirrored environ refusals connections events debug_last_payload
           LAST_EVENT_PAYLOAD now ensured_events auto_increment event_rows ev_rows].
      by rewrite event_rows_ensured.
    - unfold new_event_row.
      cbn [mirrored events ensured_events auto_increment event_rows ev_rows image_url_type].
      by rewrite Bt, Bde, Bim, Bda, Blo. }
  rewrite (handle_returns _ _ _ _ _ Hv). cbn [fst snd event_rows events ev_rows].
  repeat split; try done.
  - intros s Hs. rewrite Hs in Bt. apply bind_text_str in Bt. congruence.
  - intros s Hs. rewrite Hs in Bde. by apply bind_text_str in Bde.
  - intros s Hs. rewrite Hs in Bim. by apply bind_text_str in Bim.
  - intros s Hs. rewrite Hs in Blo. by apply bind_text_str in Blo.
  - intros Hm. rewrite (dict_get_missing _ _ Hm), bind_text_null in Bde. congruence.
  - intros Hm. rewrite (dict_get_missing _ _ Hm), bind_text_null in Bim. congruence.
  - intros Hm. rewrite (dict_get_missing _ _ Hm), bind_text_null in Blo. congruence.
Qed.

(** ** The reader *)

Lemma date_leb_total a b : date_leb a b = true \/ date_leb b a = true.
Proof.
  unfold date_leb.
  repeat match goal with
         | |- context [(?x <? ?y)%nat] => destruct (Nat.ltb_spec x y)
         | |- context [(?x <=? ?y)%nat] => destruct (Nat.leb_spec x y)
         end; auto; lia.
Qed.

Lemma date_leb_trans a b c : date_leb a b = true -> date_leb b c = true -> date_leb a c = true.
Proof.
  unfold date_leb.
  repeat match goal with
         | |- context [(?x <? ?y)%nat] => destruct (Nat.ltb_spec x y)
         | |- context [(?x <=? ?y)%nat] => destruct (Nat.leb_spec x y)
         end; auto; try lia; try discriminate.
Qed.

#[local] Instance by_date_total : Total by_date.
Proof.
  intros a b. unfold by_date.
  destruct (date_leb_total (ev_date a) (ev_date b)) as [-> | ->]; [by left | by right].
Qed.

#[local] Instance by_date_trans : Transitive by_date.
Proof.
  intros a b c. unfold by_date. rewrite !Is_true_true. apply date_leb_trans.
Qed.

Lemma forallb_seq (f : nat -> bool) n :
  forallb f (seq 0 n) = true -> forall k, (k < n)%nat -> f k = true.
Proof.
  rewrite forallb_forall. intros Hf k Hk. apply Hf. apply in_seq. lia.
Qed.

Lemma zero_pad_4 y :
  (y < 100 * 100)%nat ->
  (String.length (zero_pad 4 y) =? 4)%nat && all_digits (zero_pad 4 y) = true.
Proof.
  intros Hy.
  apply (forallb_seq (fun y => (String.length (zero_pad 4 y) =? 4)%nat
                               && all_digits (zero_pad 4 y)) (100 * 100));
    [by vm_compute | lia].
Qed.

Lemma zero_pad_2 n :
  (n <= 99)%nat ->
  (String.length (zero_pad 2 n) =? 2)%nat && all_digits (zero_pad 2 n) = true.
Proof.
  intros Hn.
  apply (forallb_seq (fun n => (String.length (zero_pad 2 n) =? 2)%nat
                               && all_digits (zero_pad 2 n)) 100);
    [by vm_compute | lia].
Qed.

Lemma is_ymd_assemble y m d :
  (String.length y =? 4)%nat && all_digits y = true ->
  (String.length m =? 2)%nat && all_digits m = true ->
  (String.length d =? 2)%nat && all_digits d = true ->
  is_ymd (y +:+ "-" +:+ m +:+ "-" +:+ d) = true.
Proof.
  destruct y as [|y1 [|y2 [|y3 [|y4 [|]]]]]; try done.
  destruct m as [|m1 [|m2 [|]]]; try done.
  destruct d as [|d1 [|d2 [|]]]; try done.
  cbn. intros Hy Hm Hd.
  repeat match goal with
         | H : _ && _ = true |- _ => apply andb_prop in H; destruct H
         end.
  cbv -[is_digit].
  repeat match goal with H : is_digit _ = true |- _ => rewrite H; clear H end.
  done.
Qed.

Lemma DATE_FORMAT_shape d : in_range d -> is_ymd (DATE_FORMAT d) = true.
Proof.
  intros (Hy & Hm & Hd). unfold DATE_FORMAT.
  apply is_ymd_assemble; [by apply zero_pad_4 | apply zero_pad_2; lia | apply zero_pad_2; lia].
Qed.

Lemma zero_pad_4_text y :
  (y < 100 * 100)%nat ->
  zero_pad 4 y
  = String (decimal_digit (y / 1000)) (String (decimal_digit (y / 100))
      (String (decimal_digit (y / 10)) (String (decimal_digit y) EmptyString))).
Proof.
  intros Hy. apply String.eqb_eq.
  apply (forallb_seq
           (fun y => String.eqb (zero_pad 4 y)
                       (String (decimal_digit (y / 1000)) (String (decimal_digit (y / 100))
                          (String (decimal_digit (y / 10))
                             (String (decimal_digit y) EmptyString)))))
           (100 * 100));
    [by vm_compute | lia].
Qed.

Lemma zero_pad_2_text n :
  (n <= 99)%nat ->
  zero_pad 2 n = String (decimal_digit (n / 10)) (String (decimal_digit n) EmptyString).
Proof.
  intros Hn. apply String.eqb_eq.
  apply (forallb_seq
           (fun n => String.eqb (zero_pad 2 n)
                       (String (decimal_digit (n / 10))
                          (String (decimal_digit n) EmptyString)))
           100);
    [by vm_compute | lia].
Qed.

Lemma DATE_FORMAT_text d : in_range d -> DATE_FORMAT d = YYYY_MM_DD d.
Proof.
  intros (Hy & Hm & Hd). unfold DATE_FORMAT, YYYY_MM_DD.
  rewrite (zero_pad_4_text (year d)) by done.
  rewrite (zero_pad_2_text (month d)) by lia.
  rewrite (zero_pad_2_text (day d)) by lia.
  reflexivity.
Qed.

Lemma row_dict_fields r :
  row_dict r
  = JObj [("title", JStr (ev_title r));
          ("date", JStr (DATE_FORMAT (ev_date r)));
          ("image_url", match ev_image_url r with Some s => JStr s | None => JNull end);
          ("description", match ev_description r with Some s => JStr s | None => JNull end);
          ("location", match ev_location r with Some s => JStr s | None => JNull end)].
Proof. unfold row_dict, cell. reflexivity. Qed.

Lemma get_data_ok w :
  available w ->
  get_data w
  = (Ok (200, Jsonify (JObj [("data", JArr (map row_dict (merge_sort by_date (event_rows w))))])),
     World (environ w) (refusals w) (connections w ++ [ForceClosed; Closed; Closed])
           (Some (ensured_events (events w))) (debug_last_payload w)
           (LAST_EVENT_PAYLOAD w) (now w)).
Proof.
  intros Ha. unfold get_data, try_except, bind. by rewrite fetch_data_from_db_ok.
Qed.

(** C3. On a configured and reachable store, GET /data answers 200 for every
    state of the events table, the table not existing yet included.  The
    body is [{"data": [...]}] with one dict per row of the table (the rows
    of the answer are a permutation of the rows of the table), in ascending
    order of date.  Each dict has the five keys title, date, image_url,
    description and location, in the order of the SELECT, and no other: the
    title is the str of the row, each of image_url, description and location
    is the str of its column or [None] when the column is NULL, and the date
    of a row of the [DATE] range is the text YYYY-MM-DD, that is the four
    digits of the year, a dash, the two digits of the month, a dash, the two
    digits of the day.  With no row the body is [{"data": []}].  The rows of
    the table are left as they are. *)
Theorem get_data_lists_events_by_date w :
  available w ->
  exists rows,
    (handle GET_data w).1 = Reply 200 (Jsonify (JObj [("data", JArr (map row_dict rows))])) /\
    Permutation rows (event_rows w) /\
    StronglySorted by_date rows /\
    (forall r, In r rows ->
       exists date_text,
         row_dict r
         = JObj [("title", JStr (ev_title r));
                 ("date", JStr date_text);
                 ("image_url",
                  match ev_image_url r with Some s => JStr s | None => JNull end);
                 ("description",
                  match ev_description r with Some s => JStr s | None => JNull end);
                 ("location",
                  match ev_location r with Some s => JStr s | None => JNull end)] /\
         (in_range (ev_date r) ->
          date_text = YYYY_MM_DD (ev_date r) /\ is_ymd date_text = true)) /\
    (event_rows w = [] ->
       (handle GET_data w).1 = Reply 200 (Jsonify (JObj [("data", JArr [])]))) /\
    event_rows (handle GET_data w).2 = event_rows w.
Proof.
  intros Ha. exists (merge_sort by_date (event_rows w)).
  rewrite (handle_returns GET_data _ _ _ _ (get_data_ok w Ha)). cbn [fst snd].
  split; [done|].
  split; [apply merge_sort_Permutation|].
  split; [apply StronglySorted_merge_sort; apply _|].
  split.
  { intros r _. exists (DATE_FORMAT (ev_date r)). split; [apply row_dict_fields|].
    intros Hr. split; [by apply DATE_FORMAT_text | by apply DATE_FORMAT_shape]. }
  split; [by intros ->|].
  unfold event_rows at 1. cbn [events]. apply event_rows_ensured.
Qed.

(** X1. On a configured and reachable store that takes the serialised text, a
    dict that has both keys, one of them with a value that Python takes for
    false (the empty str, null, 0, ...), passes the presence check of the
    view and is stopped by the guard of [insert_data_into_db]: its
    [ValueError] is caught by the catch-all of the view, and the answer is
    500 with the text [Missing required fields: title, date], not 400. *)
Lemma empty_value_is_answered_500 w d :
  available w ->
  bind_text TEXT (JStr (dumps (JObj d))) <> None ->
  dict_has "title" d = true ->
  dict_has "date" d = true ->
  truthy (dict_get "title" d) = false \/ truthy (dict_get "date" d) = false ->
  (handle (POST_events (Decoded (JObj d))) w).1
  = Reply 500 (Jsonify (JObj [("error", JStr "During event creation");
                              ("detail", JStr "Missing required fields: title, date")])).
Proof.
  intros Ha Hc Ht Hd He. apply accepted_text in Hc.
  erewrite handle_returns; [reflexivity|]. cbn [view].
  rewrite (create_event_mirrored w _ _ Ha Hc).
  unfold try_except, create_event_tail, modify, bind at 1 2.
  assert (Hne : truthy (JObj d) = true) by (by destruct d).
  rewrite Hne. cbn [negb all_in required_fields contains bind ret].
  rewrite Ht, Hd. unfold bind, ret. cbn [negb]. cbn beta iota.
  rewrite (insert_data_into_db_empty _ d); [done | frame | done].
Qed.

(** ** The Payload Mirror *)

Lemma post_leaves_mirror_row w p :
  available w ->
  bind_text TEXT (JStr (dumps p)) <> None ->
  debug_last_payload (handle (POST_events (Decoded p)) w).2
  = Some (List.filter other_key (debug_rows w) ++ [DebugRow 1 (Some (dumps p)) (now w)]).
Proof.
  intros Ha Hc. apply accepted_text in Hc.
  rewrite handle_world. cbn [view]. rewrite (create_event_mirrored w _ _ Ha Hc).
  by apply debug_is_create_event_tail.
Qed.

Lemma debug_at_create_db_table X t : keeps (debug_at X t) create_db_table.
Proof. unfold_app. keeps_auto. Qed.

Lemma debug_at_get_db_connection X t : keeps (debug_at X t) get_db_connection.
Proof. unfold_app. keeps_auto. Qed.

(** A run of the Payload Mirror that returns has replaced the row of key 1,
    in any state of the process and the store. *)
Lemma write_last_payload_to_db_returns w p w' :
  write_last_payload_to_db p w = (Ok tt, w') ->
  debug_last_payload w'
  = Some (List.filter other_key (debug_rows w) ++ [DebugRow 1 (Some (dumps p)) (now w)]).
Proof.
  unfold write_last_payload_to_db, bind.
  pose proof (debug_at_create_db_table (debug_last_payload w) (now w) w) as H1.
  destruct (create_db_table w) as [[[]|e] w1]; [|done].
  specialize (H1 (conj eq_refl eq_refl)).
  pose proof (debug_at_get_db_connection (debug_last_payload w) (now w) w1 H1) as H2.
  destruct (get_db_connection w1) as [[c|e] w2]; [|done].
  cbn [snd] in H1, H2. destruct H2 as [Hd Ht].
  unfold try_finally, create_debug_sql, replace_debug_sql, commit, check_open, close,
    bind, modify, debug_rows.
  destruct w2 as [env refs cs ev dbg last clock]. cbn in Hd, Ht. subst dbg clock.
  destruct (bind_text TEXT (JStr (dumps p))) as [text|] eqn:Hc;
    [rewrite (bind_text_str _ _ _ Hc)|];
    destruct (cs !! c) as [[| |]|] eqn:Hl; destruct (debug_last_payload w);
    repeat first
      [ rewrite Hl
      | progress cbn [fst snd connections debug_last_payload set_debug_last_payload
                      set_connections now] ];
    first [ by intros [= <-] | by intros [=] ].
Qed.

(** A request that got as far as the presence check was mirrored first, in
    any state of the process and the store. *)
Lemma rejected_after_mirror w p b :
  (handle (POST_events (Decoded p)) w).1 = Reply 400 b ->
  debug_last_payload (handle (POST_events (Decoded p)) w).2
  = Some (List.filter other_key (debug_rows w) ++ [DebugRow 1 (Some (dumps p)) (now w)]).
Proof.
  rewrite handle_world. unfold handle. cbn [view]. rewrite create_event_eq.
  unfold try_except at 1 2, bind at 1 2.
  pose proof (write_last_payload_to_db_returns w p) as Hw.
  destruct (write_last_payload_to_db p w) as [[[]|e] w1].
  - intros _. specialize (Hw w1 eq_refl).
    exact (debug_is_create_event_tail _ p w1 Hw).
  - by destruct e.
Qed.

(** C4. For every POST /events request whose body [request.get_json()]
    decodes ([null] giving [None]), on a configured and reachable store that
    takes the serialised text, [json.dumps(payload)] is written into the row
    of key 1 of [debug_last_payload]: the write is the first thing the view
    does with the payload, the presence check and the insertion run in the
    store it leaves, and nothing after it touches the debug table.  So the
    row is there whatever the response is, and in particular when a missing
    key makes it 400.  In any state of the process and the store, a request
    that is answered 400 has been mirrored.  A request whose body
    [request.get_json()] refuses is answered 500 and changes nothing, the
    debug table included. *)
Theorem payload_mirrored_before_validation w p :
  (forall code text,
     handle (POST_events (Undecodable code text)) w
     = (Reply 500 (Jsonify (JObj [("error", JStr "During event creation");
                                  ("detail", JStr text)])), w)) /\
  (forall b,
     (handle (POST_events (Decoded p)) w).1 = Reply 400 b ->
     debug_last_payload (handle (POST_events (Decoded p)) w).2
     = Some (List.filter other_key (debug_rows w) ++ [DebugRow 1 (Some (dumps p)) (now w)])) /\
  (available w ->
   bind_text TEXT (JStr (dumps p)) <> None ->
   write_last_payload_to_db p w = (Ok tt, mirrored (Some (dumps p)) w) /\
   create_event (Decoded p) w
   = try_except (create_event_tail p) create_event_handler (mirrored (Some (dumps p)) w) /\
   debug_last_payload (handle (POST_events (Decoded p)) w).2
   = Some (List.filter other_key (debug_rows w) ++ [DebugRow 1 (Some (dumps p)) (now w)]) /\
   (forall d, p = JObj d -> missing_key "title" d \/ missing_key "date" d ->
      status_code (handle (POST_events (Decoded p)) w).1 = 400)).
Proof.
  split; [done|]. split; [apply rejected_after_mirror|].
  intros Ha Hc. split; [|split; [|split; [by apply post_leaves_mirror_row|]]];
    apply accepted_text in Hc.
  - by apply write_last_payload_to_db_ok.
  - by apply create_event_mirrored.
  - intros d -> Hm.
    erewrite handle_returns; [reflexivity|]. cbn [view].
    rewrite (create_event_mirrored w _ _ Ha Hc). unfold try_except.
    by rewrite create_event_tail_rejected.
Qed.

Lemma debug_inv_reachable w0 w : debug_inv w0 -> reachable w0 w -> debug_inv w.
Proof.
  intros H0. induction 1 as [|w r _ IH|w w' _ IH Hd]; [done| |].
  - by apply debug_inv_handle.
  - unfold debug_inv, debug_rows in *. by rewrite Hd.
Qed.

(** C8. The debug table never holds more than one row, and the key of that
    row is 1: this holds in every state reached from a state where it
    holds (a store without the table, for one), through any sequence of
    requests.  Every run of the Payload Mirror that returns leaves exactly
    the row [(1, json.dumps(payload))] there, whatever the row before.  On a
    configured and reachable store that takes the serialised text, each
    POST /events does so, whatever the verdict on the payload. *)
Theorem debug_table_single_row :
  (forall w0 w, debug_inv w0 -> reachable w0 w -> debug_inv w) /\
  (forall w p w',
     debug_inv w -> write_last_payload_to_db p w = (Ok tt, w') ->
     debug_last_payload w' = Some [DebugRow 1 (Some (dumps p)) (now w)]) /\
  (forall w p,
     debug_inv w -> available w -> bind_text TEXT (JStr (dumps p)) <> None ->
     debug_last_payload (handle (POST_events (Decoded p)) w).2
     = Some [DebugRow 1 (Some (dumps p)) (now w)]).
Proof.
  split; [exact debug_inv_reachable|]. split.
  - intros w p w' [_ Hall] Hw.
    rewrite (write_last_payload_to_db_returns w p w' Hw).
    by rewrite (filter_other_key_nil _ Hall).
  - intros w p [_ Hall] Ha Hc.
    rewrite (post_leaves_mirror_row w p Ha Hc).
    by rewrite (filter_other_key_nil _ Hall).
Qed.

(** ** Missing configuration *)

Lemma get_db_connection_unconfigured w :
  missing_vars w <> [] ->
  get_db_connection w = (Raise (EnvironmentError (missing_message w)), w).
Proof.
  intros Hm. unfold get_db_connection, bind, get_world, missing_message.
  by destruct (missing_vars w).
Qed.

Lemma create_db_table_unconfigured w :
  missing_vars w <> [] ->
  create_db_table w = (Raise (EnvironmentError (missing_message w)), w).
Proof.
  intros Hm. unfold create_db_table, bind. by rewrite get_db_connection_unconfigured.
Qed.

Lemma append_cons a s t : String a s +:+ t = String a (s +:+ t).
Proof. reflexivity. Qed.

Lemma starts_with_app p s : starts_with p (p +:+ s) = true.
Proof.
  induction p as [|a p IH]; [done|].
  rewrite append_cons. cbn. by rewrite Ascii.eqb_refl, IH.
Qed.

Lemma starts_with_refl p : starts_with p p = true.
Proof. induction p as [|a p IH]; [done|]. cbn. by rewrite Ascii.eqb_refl, IH. Qed.

Lemma substring_of_starts_with p s : starts_with p s = true -> substring_of p s = true.
Proof. intros Hs. destruct s; cbn; by rewrite Hs. Qed.

Lemma substring_of_app_r p s t : substring_of p t = true -> substring_of p (s +:+ t) = true.
Proof.
  intros Ht. induction s as [|a s IH]; [done|].
  rewrite append_cons. cbn. rewrite IH. apply orb_true_r.
Qed.

Lemma substring_of_join v sep l : In v l -> substring_of v (join sep l) = true.
Proof.
  induction l as [|x l IH]; [done|]. intros [-> | Hin].
  - destruct l as [|y l]; cbn [join]; apply substring_of_starts_with.
    + apply starts_with_refl.
    + apply starts_with_app.
  - destruct l as [|y l]; [done|]. cbn [join].
    do 2 apply substring_of_app_r. by apply IH.
Qed.

Lemma missing_message_names w v :
  In v (missing_vars w) -> substring_of v (missing_message w) = true.
Proof.
  intros Hin. unfold missing_message. apply substring_of_app_r. by apply substring_of_join.
Qed.

(** C5. When one of DB_HOST, DB_USER, DB_PASSWORD, DB_NAME is unset or empty,
    POST /events (for every body that [request.get_json()] decodes) and
    GET /data answer 500 with the [detail]
    [Missing environment variables: ...], which lists the missing names; the
    same [EnvironmentError] leaves the view of GET /debug_last_event
    unhandled, so that request fails with status 500 too, without a body of
    the application.  Nothing is changed in the process or the store. *)
Theorem missing_configuration_is_500 w :
  missing_vars w <> [] ->
  (forall p,
     handle (POST_events (Decoded p)) w
     = (Reply 500 (Jsonify (JObj [("error", JStr "During event creation");
                                  ("detail", JStr (missing_message w))])), w)) /\
  handle GET_data w
  = (Reply 500 (Jsonify (JObj [("error", JStr "During data retrieval");
                               ("detail", JStr (missing_message w))])), w) /\
  handle GET_debug_last_event w = (Unhandled (EnvironmentError (missing_message w)), w) /\
  status_code (handle GET_debug_last_event w).1 = 500 /\
  (forall v, In v (missing_vars w) -> substring_of v (missing_message w) = true).
Proof.
  intros Hm. repeat split.
  - intros p. apply handle_returns. cbn [view].
    rewrite create_event_eq. unfold try_except, bind, write_last_payload_to_db, bind.
    cbn beta. rewrite (create_db_table_unconfigured w Hm). done.
  - apply (handle_returns GET_data). cbn [view].
    unfold get_data, try_except, bind, fetch_data_from_db, bind.
    cbn beta. by rewrite create_db_table_unconfigured.
  - apply (handle_raises GET_debug_last_event). cbn [view].
    unfold debug_last_event, bind. by rewrite get_db_connection_unconfigured.
  - erewrite (handle_raises GET_debug_last_event); [done|]. cbn [view].
    unfold debug_last_event, bind. by rewrite get_db_connection_unconfigured.
  - apply missing_message_names.
Qed.

(** ** Which route ensures which table *)

Lemma debug_last_event_tables w :
  available w ->
  events (handle GET_debug_last_event w).2 = events w /\
  debug_last_payload (handle GET_debug_last_event w).2 = debug_last_payload w.
Proof.
  intros Ha. destruct (debug_last_payload w) as [rows|] eqn:Hd.
  - by rewrite (handle_returns GET_debug_last_event _ _ _ _ (debug_last_event_ok w rows Ha Hd)).
  - by rewrite (handle_raises GET_debug_last_event _ _ _ (debug_last_event_no_table w Ha Hd)).
Qed.

Lemma post_tables_exist w p :
  available w -> tables_exist (handle (POST_events (Decoded p)) w).2.
Proof.
  intros Ha. rewrite handle_world. cbn [view].
  destruct (bind_text TEXT (JStr (dumps p))) as [c|] eqn:Hc.
  - rewrite (create_event_mirrored w p c Ha Hc).
    apply tables_exist_create_event_tail. by split.
  - rewrite create_event_eq. unfold try_except, bind.
    rewrite (write_last_payload_to_db_refused w p Ha Hc). by split.
Qed.

(** C7. On a configured and reachable store: [create_db_table] creates the
    events table if it is absent, leaves an existing one as it is, and does
    nothing about [debug_last_payload].  POST /events leaves both tables in
    existence (the debug table is created by the Payload Mirror); GET /data
    ensures the events table only; GET /debug_last_event ensures no table:
    both tables are after the request what they were before, and when
    [debug_last_payload] does not exist its SELECT fails and the exception
    leaves the view. *)
Theorem tables_ensured_per_route w :
  available w ->
  (events (create_db_table w).2 = Some (ensured_events (events w)) /\
   debug_last_payload (create_db_table w).2 = debug_last_payload w) /\
  (forall t, ensured_events (Some t) = t) /\
  (forall p, tables_exist (handle (POST_events (Decoded p)) w).2) /\
  (events (handle GET_data w).2 = Some (ensured_events (events w)) /\
   debug_last_payload (handle GET_data w).2 = debug_last_payload w) /\
  (events (handle GET_debug_last_event w).2 = events w /\
   debug_last_payload (handle GET_debug_last_event w).2 = debug_last_payload w) /\
  (debug_last_payload w = None ->
   (handle GET_debug_last_event w).1
   = Unhandled (MySQLError (NoSuchTable "debug_last_payload"))).
Proof.
  intros Ha.
  split; [by rewrite create_db_table_ok|].
  split; [done|].
  split; [intros p; by apply post_tables_exist|].
  split; [by rewrite (handle_returns GET_data _ _ _ _ (get_data_ok w Ha))|].
  split; [by apply debug_last_event_tables|].
  intros Hd.
  by rewrite (handle_raises GET_debug_last_event _ _ _ (debug_last_event_no_table w Ha Hd)).
Qed.

(** ** The global and the debug endpoint *)

Lemma missing_vars_frame w w' : environ w' = environ w -> missing_vars w' = missing_vars w.
Proof.
  intros He. unfold missing_vars. apply filter_ext. intros v. unfold not_set. by rewrite He.
Qed.

Lemma debug_last_event_global v w :
  (debug_last_event (set_LAST_EVENT_PAYLOAD v w)).1 = (debug_last_event w).1.
Proof.
  unfold debug_last_event, get_db_connection, bind, get_world.
  rewrite (missing_vars_frame w (set_LAST_EVENT_PAYLOAD v w)) by done.
  destruct (missing_vars w); [|done].
  unfold try_except, pymysql_connect, try_finally, select_debug_sql, check_open, close,
    bind, ret, raise.
  destruct w as [env refs cs ev dbg last clock].
  cbn [environ refusals connections events debug_last_payload LAST_EVENT_PAYLOAD now
       set_refusals set_connections set_LAST_EVENT_PAYLOAD].
  destruct refs as [|[[text|text]|] refs]; [|done|done|];
    cbn [environ refusals connections events debug_last_payload LAST_EVENT_PAYLOAD now
         set_refusals set_connections set_LAST_EVENT_PAYLOAD];
    rewrite !lookup_end; destruct dbg;
    cbn [environ refusals connections events debug_last_payload LAST_EVENT_PAYLOAD now
         set_refusals set_connections set_LAST_EVENT_PAYLOAD];
    by rewrite !lookup_end.
Qed.

Lemma post_sets_global w p :
  available w ->
  bind_text TEXT (JStr (dumps p)) <> None ->
  LAST_EVENT_PAYLOAD (handle (POST_events (Decoded p)) w).2 = p.
Proof.
  intros Ha Hc. apply accepted_text in Hc.
  rewrite handle_world. cbn [view]. rewrite (create_event_mirrored w _ _ Ha Hc).
  apply create_event_tail_sets_global.
Qed.

(** C9. GET /debug_last_event does not read the global
    [LAST_EVENT_PAYLOAD]: its reply is the same whatever the global holds.
    What it returns, on a configured and reachable store where the debug
    table exists, is the row of key 1 of that table, or the empty object
    when there is none.  The global itself is set by POST /events, once the
    Payload Mirror has written the payload. *)
Theorem debug_last_event_reads_the_table w v :
  (handle GET_debug_last_event (set_LAST_EVENT_PAYLOAD v w)).1
  = (handle GET_debug_last_event w).1 /\
  (available w ->
   forall rows, debug_last_payload w = Some rows ->
   (handle GET_debug_last_event w).1
   = Reply 200 match List.find (fun r => dbg_id r =? 1) rows with
               | Some r => JsonifyDebugRow (payload_json r) (created_at r)
               | None => Jsonify (JObj [])
               end) /\
  (available w ->
   forall p, bind_text TEXT (JStr (dumps p)) <> None ->
   LAST_EVENT_PAYLOAD (handle (POST_events (Decoded p)) w).2 = p).
Proof.
  split; [|split].
  - pose proof (debug_last_event_global v w) as Hg.
    unfold handle. cbn [view].
    destruct (debug_last_event (set_LAST_EVENT_PAYLOAD v w)) as [[[s b]|e] w1];
      destruct (debug_last_event w) as [[[s' b']|e'] w2]; cbn in *; congruence.
  - intros Ha rows Hd.
    by rewrite (handle_returns GET_debug_last_event _ _ _ _ (debug_last_event_ok w rows Ha Hd)).
  - intros Ha p Hc. by apply post_sets_global.
Qed.

(** * Further properties of the application *)

Ltac keeps_by unf :=
  repeat first
    [ solve [eauto with keeps]
    | apply keeps_ret
    | apply keeps_raise
    | apply keeps_bind; [| intros ?]
    | apply keeps_try_except; [| intros ?]
    | apply keeps_try_finally
    | split_match
    | solve [unf; leaf] ].

Lemma config_is_all_in E fields p : keeps (config_is E) (all_in fields p).
Proof. induction fields; cbn [all_in]; keeps_by ltac:(unfold config_is). Qed.

#[local] Hint Resolve config_is_all_in : keeps.

Lemma config_is_view E r : keeps (config_is E) (view r).
Proof.
  destruct r; cbn [view]; unfold_app; unfold payload_get;
    keeps_by ltac:(unfold config_is).
Qed.

Lemma available_handle r w : available w -> available (handle r w).2.
Proof.
  intros Ha. rewrite handle_world.
  destruct (config_is_view (environ w) r w) as [He Hr]; [by destruct Ha|].
  apply (available_frame w); [done | destruct Ha; congruence | done].
Qed.

(** ** What the debug endpoint shows after a POST *)

Lemma find_after_replace rows row :
  dbg_id row = 1 ->
  List.find (fun r => dbg_id r =? 1) (List.filter other_key rows ++ [row]) = Some row.
Proof.
  intros Hrow. induction rows as [|r rows IH]; cbn.
  - by rewrite Hrow.
  - unfold other_key at 1. destruct (dbg_id r =? 1) eqn:E; cbn; [done|]. by rewrite E.
Qed.

(** X2. On a configured and reachable store that takes the serialised text,
    GET /debug_last_event after POST /events shows [json.dumps] of the
    payload just posted and the time of that request, whatever the debug
    table held before and whatever the verdict on the payload. *)
Theorem post_then_debug_last_event w p :
  available w ->
  bind_text TEXT (JStr (dumps p)) <> None ->
  (handle GET_debug_last_event (handle (POST_events (Decoded p)) w).2).1
  = Reply 200 (JsonifyDebugRow (Some (dumps p)) (now w)).
Proof.
  intros Ha Hc.
  pose proof (post_leaves_mirror_row w p Ha Hc) as Hd.
  pose proof (available_handle (POST_events (Decoded p)) w Ha) as Ha'.
  rewrite (handle_returns GET_debug_last_event _ _ _ _ (debug_last_event_ok _ _ Ha' Hd)).
  cbn [fst]. by rewrite find_after_replace.
Qed.

(** ** Payloads that are empty *)

(** X3. A payload that Python takes for false (null, false, 0, the empty str,
    list or dict) is answered 400 once it is mirrored, and the global holds
    it. *)
Theorem falsy_payload_is_400 w p :
  available w ->
  bind_text TEXT (JStr (dumps p)) <> None ->
  truthy p = false ->
  handle (POST_events (Decoded p)) w
  = (Reply 400 (Jsonify (JObj [("error", JStr "Missing required fields: 'title' and 'date'")])),
     set_LAST_EVENT_PAYLOAD p (mirrored (Some (dumps p)) w)).
Proof.
  intros Ha Hc Hp. apply accepted_text in Hc.
  apply handle_returns. cbn [view].
  rewrite (create_event_mirrored w _ _ Ha Hc).
  unfold try_except, create_event_tail, modify, bind at 1 2. by rewrite Hp.
Qed.

(** ** A failure of the Payload Mirror *)

Lemma last_is_write_last_payload_to_db v p : keeps (last_is v) (write_last_payload_to_db p).
Proof. unfold_app. keeps_by ltac:(unfold last_is). Qed.

(** X4. When the Payload Mirror raises, the request ends there: the answer is
    500 with the text of the exception, the payload is neither checked nor
    inserted, and the global keeps its value. *)
Theorem mirror_failure_ends_the_request w p e w' :
  write_last_payload_to_db p w = (Raise e, w') ->
  handle (POST_events (Decoded p)) w
  = (Reply 500 (Jsonify (JObj [("error", JStr "During event creation");
                               ("detail", JStr (str e))])), w') /\
  event_rows w' = event_rows w /\
  LAST_EVENT_PAYLOAD w' = LAST_EVENT_PAYLOAD w.
Proof.
  intros Hw. split; [|split].
  - apply handle_returns. cbn [view]. rewrite create_event_eq.
    unfold try_except, bind. rewrite Hw.
    pose proof (no_nie_write_last_payload_to_db p w e) as Hn.
    rewrite Hw in Hn. specialize (Hn eq_refl). by destruct e.
  - pose proof (rows_are_write_last_payload_to_db (event_rows w) p w eq_refl) as Hr.
    by rewrite Hw in Hr.
  - pose proof (last_is_write_last_payload_to_db (LAST_EVENT_PAYLOAD w) p w eq_refl) as Hl.
    by rewrite Hw in Hl.
Qed.

(** ** The GET routes only read *)

Lemma get_data_keeps_debug X : keeps (debug_is X) get_data.
Proof. unfold_app. keeps_by idtac. Qed.

Lemma get_data_keeps_rows X : keeps (rows_are X) get_data.
Proof. unfold_app. keeps_by idtac. Qed.

Lemma get_data_keeps_global v : keeps (last_is v) get_data.
Proof. unfold_app. keeps_by ltac:(unfold last_is). Qed.

Lemma debug_last_event_keeps_debug X : keeps (debug_is X) debug_last_event.
Proof. unfold_app. keeps_by idtac. Qed.

Lemma debug_last_event_keeps_events X : keeps (fun w => events w = X) debug_last_event.
Proof. unfold_app. keeps_by idtac. Qed.

Lemma debug_last_event_keeps_global v : keeps (last_is v) debug_last_event.
Proof. unfold_app. keeps_by ltac:(unfold last_is). Qed.

(** X5. In every state of the process and the store, also when the request
    fails: GET /data changes neither the rows of the events table, nor the
    debug table, nor the global; GET /debug_last_event changes neither
    table nor the global; GET /health changes nothing at all. *)
Theorem get_routes_only_read w :
  (event_rows (handle GET_data w).2 = event_rows w /\
   debug_last_payload (handle GET_data w).2 = debug_last_payload w /\
   LAST_EVENT_PAYLOAD (handle GET_data w).2 = LAST_EVENT_PAYLOAD w) /\
  (events (handle GET_debug_last_event w).2 = events w /\
   debug_last_payload (handle GET_debug_last_event w).2 = debug_last_payload w /\
   LAST_EVENT_PAYLOAD (handle GET_debug_last_event w).2 = LAST_EVENT_PAYLOAD w) /\
  (handle GET_health w).2 = w.
Proof.
  rewrite !handle_world. cbn [view]. repeat split.
  - by apply (get_data_keeps_rows (event_rows w)).
  - by apply (get_data_keeps_debug (debug_last_payload w)).
  - by apply (get_data_keeps_global (LAST_EVENT_PAYLOAD w)).
  - by apply (debug_last_event_keeps_events (events w)).
  - by apply (debug_last_event_keeps_debug (debug_last_payload w)).
  - by apply (debug_last_event_keeps_global (LAST_EVENT_PAYLOAD w)).
Qed.

(** ** The statuses of each route *)

Ltac step_status :=
  first
    [ apply returns_ret; solve [unfold post_status, get_status, ok_status; cbn; lia]
    | apply returns_raise
    | apply returns_bind; intros ?
    | apply returns_try_finally
    | split_match ].

Lemma create_event_statuses b : returns post_status (create_event b).
Proof.
  unfold create_event.
  apply returns_try_except_nie.
  - repeat step_no_nie.
  - repeat step_status.
  - intros e He. destruct e; try (apply returns_ret; unfold post_status; cbn; lia).
    by destruct He.
Qed.

Lemma get_data_statuses : returns get_status get_data.
Proof.
  unfold get_data.
  apply returns_try_except_nie.
  - repeat step_no_nie.
  - repeat step_status.
  - intros e He. destruct e; try (apply returns_ret; unfold get_status; cbn; lia).
    by destruct He.
Qed.

Lemma debug_last_event_statuses : returns ok_status debug_last_event.
Proof. unfold debug_last_event. repeat step_status. Qed.

(** X6. In every state and for every body: POST /events and GET /data always
    return a response of their own (no exception escapes them), with status
    201, 400 or 500 for the first and 200 or 500 for the second;
    GET /debug_last_event returns 200 or lets an exception escape;
    GET /health is answered 200. *)
Theorem statuses_per_route w :
  (forall b, exists s body,
     (handle (POST_events b) w).1 = Reply s body /\ (s = 201 \/ s = 400 \/ s = 500)) /\
  (exists s body, (handle GET_data w).1 = Reply s body /\ (s = 200 \/ s = 500)) /\
  ((exists body, (handle GET_debug_last_event w).1 = Reply 200 body) \/
   (exists e, (handle GET_debug_last_event w).1 = Unhandled e)) /\
  status_code (handle GET_health w).1 = 200.
Proof.
  split; [|split; [|split; [|done]]].
  - intros b. pose proof (create_event_statuses b w) as Hs.
    unfold handle. cbn [view].
    destruct (create_event b w) as [[[s body]|e] w'] eqn:E; cbn in *.
    + exists s, body. split; [done|]. by apply (Hs (s, body)).
    + exfalso. revert E. unfold create_event, try_except.
      match goal with |- context [match ?m w with _ => _ end] => destruct (m w) as [[a|e'] w1] end;
        [done|]. by destruct e'.
  - pose proof (get_data_statuses w) as Hs.
    unfold handle. cbn [view].
    destruct (get_data w) as [[[s body]|e] w'] eqn:E; cbn in *.
    + exists s, body. split; [done|]. by apply (Hs (s, body)).
    + exfalso. revert E. unfold get_data, try_except.
      match goal with |- context [match ?m w with _ => _ end] => destruct (m w) as [[a|e'] w1] end;
        [done|]. by destruct e'.
  - pose proof (debug_last_event_statuses w) as Hs.
    unfold handle. cbn [view].
    destruct (debug_last_event w) as [[[s body]|e] w']; cbn in *.
    + left. exists body. by rewrite (Hs (s, body) eq_refl).
    + right. by exists e.
Qed.

(** ** The Connection Provider *)

Lemma get_db_connection_returns w c w' :
  get_db_connection w = (Ok c, w') ->
  missing_vars w = [] /\ c = length (connections w) /\
  connections w' = connections w ++ [Open] /\
  environ w' = environ w /\ events w' = events w /\
  debug_last_payload w' = debug_last_payload w /\
  LAST_EVENT_PAYLOAD w' = LAST_EVENT_PAYLOAD w /\ now w' = now w.
Proof.
  unfold get_db_connection, bind, get_world.
  destruct (missing_vars w); [|done].
  unfold try_except, pymysql_connect.
  destruct (refusals w) as [|[[t|t]|] rest]; [|done|done|]; by intros [= <- <-].
Qed.

Lemma get_db_connection_raises w e w' :
  get_db_connection w = (Raise e, w') ->
  (missing_vars w <> [] /\ e = EnvironmentError (missing_message w) /\ w' = w) \/
  (missing_vars w = [] /\
   exists r rest, refusals w = Some r :: rest /\
                  e = match r with
                      | Operational t =>
                          ConnectionError ("Failed to connect to the database: " +:+ t)
                      | NotOperational t => RuntimeError t
                      end /\
                  w' = set_refusals rest w).
Proof.
  unfold get_db_connection, bind, get_world, missing_message.
  destruct (missing_vars w) eqn:Hm.
  - unfold try_except, pymysql_connect.
    destruct (refusals w) as [|[[t|t]|] rest] eqn:Hr; [done| | |done].
    + intros [= <- <-]. right. split; [done|]. by exists (Operational t), rest.
    + intros [= <- <-]. right. split; [done|]. by exists (NotOperational t), rest.
  - intros [= <- <-]. left. repeat split; congruence.
Qed.

(** X7. [get_db_connection] looks at the environment before it goes to the
    server.  When it returns, all four variables are set and the connection
    it hands out is a new, open one, nothing else having changed.  When it
    raises, no connection was handed out, and the exception is one of
    three: the [EnvironmentError] that lists the missing variables (the
    server was not contacted); the [ConnectionError] that wraps the text of
    an [OperationalError] of [pymysql.connect], which never comes out as
    such; or the exception of another class that [pymysql.connect] raised,
    which line 111 does not catch and which comes out as it is, without the
    text [Failed to connect to the database]. *)
Theorem get_db_connection_outcomes w :
  (forall c w',
     get_db_connection w = (Ok c, w') ->
     missing_vars w = [] /\ c = length (connections w) /\
     connections w' = connections w ++ [Open] /\
     events w' = events w /\ debug_last_payload w' = debug_last_payload w) /\
  (forall e w',
     get_db_connection w = (Raise e, w') ->
     connections w' = connections w /\
     ((missing_vars w <> [] /\ e = EnvironmentError (missing_message w) /\ w' = w) \/
      (missing_vars w = [] /\
       exists t, head (refusals w) = Some (Some (Operational t)) /\
                 e = ConnectionError ("Failed to connect to the database: " +:+ t)) \/
      (missing_vars w = [] /\
       exists t, head (refusals w) = Some (Some (NotOperational t)) /\
                 e = RuntimeError t))).
Proof.
  split.
  - intros c w' Hc. by destruct (get_db_connection_returns w c w' Hc) as (? & ? & ? & ? & ? & ? & _).
  - intros e w' He.
    destruct (get_db_connection_raises w e w' He)
      as [(Hm & -> & ->) | (Hm & [t|t] & rest & Hr & -> & ->)].
    + split; [done|]. by left.
    + split; [done|]. right. left. split; [done|]. exists t. by rewrite Hr.
    + split; [done|]. right. right. split; [done|]. exists t. by rewrite Hr.
Qed.

(** ** The Schema Ensurer *)

Lemma get_db_connection_raises_connections w e w' :
  get_db_connection w = (Raise e, w') ->
  connections w' = connections w /\ events w' = events w.
Proof.
  intros E.
  by destruct (get_db_connection_raises w e w' E)
    as [(_ & _ & ->) | (_ & r & rest & _ & _ & ->)].
Qed.


(** X9. On a configured and reachable store, running [create_db_table] again
    changes no table: the tables after two runs are the tables after one,
    and no run touches the rows of an events table that exists. *)
Theorem create_db_table_is_idempotent w :
  available w ->
  events (create_db_table (create_db_table w).2).2 = events (create_db_table w).2 /\
  debug_last_payload (create_db_table (create_db_table w).2).2 = debug_last_payload w /\
  event_rows (create_db_table w).2 = event_rows w.
Proof.
  intros Ha. rewrite (create_db_table_ok w Ha). cbn [snd].
  rewrite create_db_table_ok by frame. cbn [snd events debug_last_payload ensured_events].
  repeat split. unfold event_rows. cbn [events]. apply event_rows_ensured.
Qed.

(** ** Rows and statuses *)

Lemma hoare_ret {A} (P : world -> Prop) (a : A) Q R :
  (forall w, P w -> Q a w) -> hoare P (ret a) Q R.
Proof. intros HQ w Hw. by apply HQ. Qed.

Lemma hoare_raise {A} (P : world -> Prop) e (Q : A -> world -> Prop) R :
  (forall w, P w -> R e w) -> hoare P (raise e) Q R.
Proof. intros HR w Hw. by apply HR. Qed.

Lemma hoare_bind {A B} P (m : M A) (k : A -> M B) Q1 Q R :
  hoare P m Q1 R -> (forall a, hoare (Q1 a) (k a) Q R) -> hoare P (bind m k) Q R.
Proof.
  intros Hm Hk w Hw. unfold bind. specialize (Hm w Hw).
  destruct (m w) as [[a|e] w']; [by apply Hk | done].
Qed.

Lemma hoare_try_except {A} P (m : M A) (h : exn -> M A) Q R1 R :
  hoare P m Q R1 -> (forall e, hoare (R1 e) (h e) Q R) -> hoare P (try_except m h) Q R.
Proof.
  intros Hm Hh w Hw. unfold try_except. specialize (Hm w Hw).
  destruct (m w) as [[a|e] w']; [done | by apply Hh].
Qed.

Lemma hoare_try_finally {A} P (m : M A) (f : M unit) Q1 R1 Q R :
  hoare P m Q1 R1 ->
  (forall a, hoare (Q1 a) f (fun _ => Q a) R) ->
  (forall e, hoare (R1 e) f (fun _ => R e) R) ->
  hoare P (try_finally m f) Q R.
Proof.
  intros Hm Hok Hraise w Hw. unfold try_finally. specialize (Hm w Hw).
  destruct (m w) as [[a|e] w'].
  - specialize (Hok a w' Hm). by destruct (f w') as [[[]|e'] w''].
  - specialize (Hraise e w' Hm). by destruct (f w') as [[[]|e'] w''].
Qed.

Lemma hoare_of_keeps {A} I (m : M A) :
  keeps I m -> hoare I m (fun _ => I) (fun _ => I).
Proof.
  intros Hk w Hw. specialize (Hk w Hw). by destruct (m w) as [[a|e] w'].
Qed.

Lemma bind_raise_l {A B} e (k : A -> M B) : bind (raise e) k = raise e.
Proof. reflexivity. Qed.

Lemma rows_are_create_db_table X : keeps (rows_are X) create_db_table.
Proof. unfold_app. keeps_by idtac. Qed.

Lemma hoare_get_db_connection_rows X :
  hoare (rows_are X) get_db_connection (fun c => rows_unchanged X c) (fun _ => rows_are X).
Proof.
  intros w Hw. destruct (get_db_connection w) as [[c|e] w'] eqn:E.
  - destruct (get_db_connection_returns w c w' E) as (_ & -> & Hc & _ & He & _).
    split.
    + unfold rows_are, event_rows in *. by rewrite He.
    + by rewrite Hc, lookup_end.
  - destruct (get_db_connection_raises w e w' E) as [(_ & _ & ->) | (_ & t & rest & _ & _ & ->)];
      done.
Qed.

Lemma hoare_alter_rows X c :
  hoare (rows_unchanged X c) (alter_image_url_sql c)
        (fun _ => rows_unchanged X c) (fun _ => rows_unchanged X c).
Proof.
  intros w [Hr Hc]. unfold alter_image_url_sql, check_open, bind. rewrite Hc.
  unfold rows_unchanged, event_rows in *.
  destruct (events w) as [t|] eqn:E; cbn; rewrite ?E; by split.
Qed.

Lemma hoare_insert_rows X c t de im da lo :
  hoare (rows_unchanged X c) (insert_event_sql c t de im da lo)
        (fun _ => row_added X c) (fun _ => rows_unchanged X c).
Proof.
  intros w [Hr Hc]. unfold insert_event_sql, check_open, bind. rewrite Hc.
  unfold rows_unchanged, row_added, one_more, event_rows in *.
  destruct (events w) as [tbl|] eqn:E; [|cbn; rewrite ?E; by split].
  destruct (new_event_row tbl t de im da lo) as [r|e]; [|cbn; rewrite ?E; by split].
  cbn. split; [|done]. exists r. by rewrite Hr.
Qed.

Lemma hoare_commit_rows X c :
  hoare (row_added X c) (commit c) (fun _ => row_added X c) (fun _ => rows_unchanged X c).
Proof. intros w [Hr Hc]. unfold commit, check_open. rewrite Hc. by split. Qed.

Lemma hoare_close_added X c :
  hoare (row_added X c) (close c) (fun _ => one_more X) (fun _ => rows_are X).
Proof. intros w [Hr Hc]. unfold close. by rewrite Hc. Qed.

Lemma hoare_close_unchanged X c :
  hoare (rows_unchanged X c) (close c) (fun _ => rows_are X) (fun _ => rows_are X).
Proof. intros w [Hr Hc]. unfold close. by rewrite Hc. Qed.

(** [insert_data_into_db] adds exactly one row when it returns and none
    when it raises. *)
Lemma insert_data_into_db_rows X p :
  hoare (rows_are X) (insert_data_into_db p) (fun _ => one_more X) (fun _ => rows_are X).
Proof.
  unfold insert_data_into_db.
  eapply hoare_bind; [apply hoare_of_keeps, rows_are_create_db_table|]. intros ?.
  unfold payload_get.
  destruct p; try (rewrite bind_raise_l; by apply hoare_raise).
  rewrite !bind_ret_l.
  destruct (negb _ || negb _); [by apply hoare_raise|].
  eapply hoare_bind; [apply hoare_get_db_connection_rows|]. intros c.
  eapply hoare_try_finally.
  - eapply hoare_bind; [apply hoare_alter_rows|]. intros ?.
    eapply hoare_bind; [apply hoare_insert_rows|]. intros ?.
    apply hoare_commit_rows.
  - intros ?. apply hoare_close_added.
  - intros e. apply hoare_close_unchanged.
Qed.

Lemma rows_are_presence_check X p :
  keeps (rows_are X)
        (if negb (truthy p) then ret true
         else b <- all_in required_fields p ;; ret (negb b)).
Proof. keeps_by idtac. Qed.

Lemma create_event_rows X b :
  hoare (rows_are X) (create_event b) (created_or_unchanged X) (fun _ _ => False).
Proof.
  unfold create_event.
  apply hoare_try_except with (R1 := fun _ => rows_are X).
  - eapply hoare_bind with (Q1 := fun _ => rows_are X).
    { destruct b; [by apply hoare_ret | by apply hoare_raise]. }
    intros payload.
    eapply hoare_bind; [apply hoare_of_keeps, rows_are_write_last_payload_to_db|]. intros ?.
    eapply hoare_bind with (Q1 := fun _ => rows_are X).
    { apply hoare_of_keeps. intros w Hw. exact Hw. }
    intros ?.
    eapply hoare_bind; [apply hoare_of_keeps, rows_are_presence_check|].
    intros [|].
    + apply hoare_ret. intros w Hw. right. split; [cbn; lia | exact Hw].
    + eapply hoare_bind; [apply insert_data_into_db_rows|]. intros ?.
      apply hoare_ret. intros w Hw. left. by split.
  - intros e. destruct e; apply hoare_ret; intros w Hw; right; (split; [cbn; lia | exact Hw]).
Qed.

(** X10. For every request, in every state of the process and the store: the
    rows of the events table after the request are the rows before it,
    with one row appended exactly when the request is answered 201.  No
    request removes or changes a row, none adds more than one, and a
    request that is answered otherwise than 201 adds none. *)
Theorem rows_change_only_on_201 r w :
  (status_code (handle r w).1 = 201 /\
   exists row, event_rows (handle r w).2 = event_rows w ++ [row]) \/
  (status_code (handle r w).1 <> 201 /\ event_rows (handle r w).2 = event_rows w).
Proof.
  destruct r as [|b| |].
  - right. by split.
  - pose proof (create_event_rows (event_rows w) b w eq_refl) as Hc.
    unfold handle. cbn [view].
    destruct (create_event b w) as [[[s body]|e] w']; [|done]. exact Hc.
  - right. split.
    + pose proof (debug_last_event_statuses w) as Hs.
      unfold handle. cbn [view].
      destruct (debug_last_event w) as [[[s body]|e] w']; cbn in *; [|lia].
      rewrite (Hs (s, body) eq_refl). lia.
    + rewrite handle_world. cbn [view]. unfold event_rows.
      by rewrite (debug_last_event_keeps_events (events w) w eq_refl).
  - right. split.
    + pose proof (get_data_statuses w) as Hs.
      unfold handle. cbn [view].
      destruct (get_data w) as [[[s body]|e] w']; cbn in *; [|lia].
      destruct (Hs (s, body) eq_refl) as [Hs'|Hs']; cbn in Hs'; lia.
    + rewrite handle_world. cbn [view]. by apply (get_data_keeps_rows (event_rows w)).
Qed.

(** ** What a status says about the payload *)

Lemma returns_bind_val {A B} (Q1 : A -> Prop) (Q : B -> Prop) (m : M A) (k : A -> M B) :
  returns Q1 m -> (forall a, Q1 a -> returns Q (k a)) -> returns Q (bind m k).
Proof.
  intros Hm Hk w b. unfold bind. specialize (Hm w).
  destruct (m w) as [[a|e] w']; cbn in *; [|done].
  apply Hk. by apply Hm.
Qed.

Lemma returns_const {A} (C : Prop) (m : M A) : C -> returns (fun _ => C) m.
Proof. by intros HC w a _. Qed.

Lemma insert_data_into_db_returns p :
  returns (fun _ => has_title_and_date p) (insert_data_into_db p).
Proof.
  unfold insert_data_into_db. apply returns_bind. intros _.
  unfold payload_get.
  destruct p; try (rewrite bind_raise_l; apply returns_raise).
  rewrite !bind_ret_l.
  destruct (truthy (dict_get "title" fields)) eqn:Ht;
    destruct (truthy (dict_get "date" fields)) eqn:Hd; cbn [negb orb];
    try apply returns_raise.
  apply returns_const. by exists fields.
Qed.

Lemma presence_check_returns p :
  returns (fun rejected : bool => rejected = true -> truthy p = false \/ lacks_required p)
          (if negb (truthy p) then ret true
           else b <- all_in required_fields p ;; ret (negb b)).
Proof.
  destruct (truthy p) eqn:Hp; cbn [negb]; [|apply returns_ret; by left].
  cbn [all_in required_fields]. unfold contains.
  destruct p; try (rewrite !bind_raise_l; apply returns_raise);
    intros w a; unfold bind, ret; cbn beta iota.
  - destruct (substring_of "title" s) eqn:E1; [destruct (substring_of "date" s) eqn:E2|];
      cbn; intros [= <-]; intros; try done; right; cbn; auto.
  - destruct (existsb (eq_str "title") items) eqn:E1;
      [destruct (existsb (eq_str "date") items) eqn:E2|];
      cbn; intros [= <-]; intros; try done; right; cbn; auto.
  - destruct (dict_has "title" fields) eqn:E1; [destruct (dict_has "date" fields) eqn:E2|];
      cbn; intros [= <-]; intros; try done; right; unfold lacks_required, missing_key; auto.
Qed.

Lemma create_event_status_tells p : returns (status_tells p) (create_event (Decoded p)).
Proof.
  unfold create_event, request_get_json. rewrite bind_ret_l.
  apply returns_try_except_nie.
  - repeat step_no_nie.
  - apply returns_bind. intros ?. apply returns_bind. intros ?.
    eapply returns_bind_val; [apply presence_check_returns|].
    intros [|] Hrej.
    + apply returns_ret. split; cbn; [auto | lia].
    + eapply returns_bind_val; [apply insert_data_into_db_returns|].
      intros ? Hhas. apply returns_ret. split; cbn; [lia | auto].
  - intros e He. destruct e; apply returns_ret; split; cbn; lia.
Qed.

(** X11. In every state of the process and the store: a POST /events that is
    answered 400 carried a payload that Python takes for false or that
    fails the presence check, and a POST /events that is answered 201
    carried a dict with a non-empty title and a non-empty date. *)
Theorem post_status_tells_the_payload w p :
  (status_code (handle (POST_events (Decoded p)) w).1 = 400 ->
   truthy p = false \/ lacks_required p) /\
  (status_code (handle (POST_events (Decoded p)) w).1 = 201 -> has_title_and_date p).
Proof.
  pose proof (create_event_status_tells p w) as Hs.
  unfold handle. cbn [view].
  destruct (create_event (Decoded p) w) as [[[s body]|e] w']; cbn in *.
  - exact (Hs (s, body) eq_refl).
  - split; lia.
Qed.

(** ** The connection of the debug endpoint *)

Lemma debug_last_event_connections w :
  connections (debug_last_event w).2 = connections w \/
  connections (debug_last_event w).2 = connections w ++ [Closed].
Proof.
  destruct (get_db_connection w) as [[c|e] w1] eqn:E.
  - right. unfold debug_last_event. unfold bind at 1. cbn beta. rewrite E.
    destruct (get_db_connection_returns w c w1 E) as (_ & -> & Hc1 & _).
    unfold try_finally, select_debug_sql, check_open, close, bind, ret.
    destruct w1 as [env1 refs1 cs1 ev1 [rows|] last1 clock1];
      cbn [connections] in Hc1; subst cs1;
      repeat first
        [ rewrite lookup_end
        | rewrite list_insert_end
        | progress cbn beta iota delta [fst snd connections debug_last_payload
                                        set_connections] ];
      done.
  - left. unfold debug_last_event. unfold bind at 1. cbn beta. rewrite E.
    by destruct (get_db_connection_raises w e w1 E)
      as [(_ & _ & ->) | (_ & t & rest & _ & _ & ->)].
Qed.

Lemma open_connections_closed w w' :
  connections w' = connections w \/ connections w' = connections w ++ [Closed] ->
  open_connections w' = open_connections w.
Proof.
  unfold open_connections. intros [-> | ->]; [done|].
  rewrite List.filter_app, length_app. cbn. lia.
Qed.

(** X12. In every state of the process and the store, also when its SELECT fails:
    GET /debug_last_event touches no connection that existed before, and
    the one connection it opens, if any, is closed when the view is left. *)
Theorem debug_last_event_closes_its_connection w :
  (connections (handle GET_debug_last_event w).2 = connections w \/
   connections (handle GET_debug_last_event w).2 = connections w ++ [Closed]) /\
  open_connections (handle GET_debug_last_event w).2 = open_connections w.
Proof.
  rewrite handle_world. cbn [view]. split; [apply debug_last_event_connections|].
  apply open_connections_closed, debug_last_event_connections.
Qed.

(** ** Every connection is released *)

Lemma hoare_assert {A} (phi : Prop) P (m : M A) Q R :
  (forall w, P w -> phi) -> (phi -> hoare P m Q R) -> hoare P m Q R.
Proof. intros Hphi Hm w Hw. exact (Hm (Hphi w Hw) w Hw). Qed.

Lemma hoare_conseq {A} P (m : M A) (Q Q' : A -> world -> Prop) (R R' : exn -> world -> Prop) :
  hoare P m Q R ->
  (forall a w, Q a w -> Q' a w) -> (forall e w, R e w -> R' e w) ->
  hoare P m Q' R'.
Proof.
  intros Hm HQ HR w Hw. specialize (Hm w Hw).
  destruct (m w) as [[a|e] w']; [by apply HQ | by apply HR].
Qed.

Lemma keeps_of_hoare {A} I (m : M A) :
  hoare I m (fun _ => I) (fun _ => I) -> keeps I m.
Proof.
  intros Hm w Hw. specialize (Hm w Hw). by destruct (m w) as [[a|e] w'].
Qed.

Lemma held_start w : held (connections w) [] w.
Proof.
  split; [exists []; by rewrite app_nil_r|]. split; [constructor|].
  intros i Hi Hl. apply lookup_lt_Some in Hl. lia.
Qed.

Lemma held_frame X S w w' : connections w' = connections w -> held X S w -> held X S w'.
Proof. unfold held. by intros ->. Qed.

Lemma held_weaken X S S' w :
  (forall i, i ∈ S -> i ∈ S') ->
  Forall (fun c => (length X <= c)%nat) S' ->
  held X S w -> held X S' w.
Proof.
  intros Hsub Hb (Hl & _ & Ho). split; [done|]. split; [done|].
  intros i Hi Hopen. by apply Hsub, Ho.
Qed.

Lemma held_bound X S c w : held X (c :: S) w -> (length X <= c)%nat.
Proof. intros (_ & Hb & _). by inversion Hb. Qed.

Lemma held_released X w :
  held X [] w -> exists l, connections w = X ++ l /\ Forall released l.
Proof.
  intros ([l Hl] & _ & Ho). exists l. split; [done|].
  apply Forall_lookup. intros j s Hj.
  destruct s; [|by left|by right]. exfalso.
  assert (Hopen : connections w !! (length X + j)%nat = Some Open).
  { rewrite Hl, lookup_app_r by lia.
    by replace (length X + j - length X)%nat with j by lia. }
  assert (Hle : (length X <= length X + j)%nat) by lia.
  specialize (Ho _ Hle Hopen). by apply elem_of_nil in Ho.
Qed.

(** A handle of [S] gets a state that is not [Open]: it need not be held
    any more. *)
Lemma held_release X S S' c s w :
  c ∈ S -> (forall i, i ∈ S -> i = c \/ i ∈ S') -> (forall i, i ∈ S' -> i ∈ S) ->
  s <> Open ->
  held X S w -> held X S' (set_connections (<[c := s]> (connections w)) w).
Proof.
  intros Hc Hrest Hsub Hs ([l Hl] & Hb & Ho).
  assert (Hlen : (length X <= c)%nat) by (by apply (proj1 (Forall_forall _ _) Hb)).
  split; [|split].
  - exists (<[(c - length X)%nat := s]> l). cbn [connections set_connections].
    by rewrite Hl, insert_app_r_alt.
  - apply Forall_forall. intros i Hi. apply (proj1 (Forall_forall _ _) Hb). by apply Hsub.
  - intros i Hi. cbn [connections set_connections].
    intros [(_ & -> & _) | [Hne Hopen]]%list_lookup_insert_Some; [done|].
    destruct (Hrest i (Ho i Hi Hopen)) as [-> | Hin]; done.
Qed.

(** A handle of [S] that is not open need not be held. *)
Lemma held_not_open X S S' c w :
  (forall i, i ∈ S -> i = c \/ i ∈ S') -> (forall i, i ∈ S' -> i ∈ S) ->
  connections w !! c <> Some Open ->
  held X S w -> held X S' w.
Proof.
  intros Hrest Hsub Hc (Hl & Hb & Ho). split; [done|]. split.
  - apply Forall_forall. intros i Hi. apply (proj1 (Forall_forall _ _) Hb). by apply Hsub.
  - intros i Hi Hopen. destruct (Hrest i (Ho i Hi Hopen)) as [-> | Hin]; done.
Qed.

Lemma held_close X S S' c :
  c ∈ S -> (forall i, i ∈ S -> i = c \/ i ∈ S') -> (forall i, i ∈ S' -> i ∈ S) ->
  hoare (held X S) (close c) (fun _ => held X S') (fun _ => held X S').
Proof.
  intros Hc Hrest Hsub w Hw. unfold close.
  destruct (connections w !! c) as [[| |]|] eqn:E.
  - by apply (held_release X S S').
  - apply (held_not_open X S S' c); [done | done | by rewrite E | done].
  - by apply (held_release X S S').
  - apply (held_not_open X S S' c); [done | done | by rewrite E | done].
Qed.

Lemma held_Connection_del X S S' c :
  c ∈ S -> (forall i, i ∈ S -> i = c \/ i ∈ S') -> (forall i, i ∈ S' -> i ∈ S) ->
  forall R, hoare (held X S) (Connection_del c) (fun _ => held X S') R.
Proof.
  intros Hc Hrest Hsub R w Hw. unfold Connection_del.
  destruct (connections w !! c) as [[| |]|] eqn:E.
  - by apply (held_release X S S').
  - apply (held_not_open X S S' c); [done | done | by rewrite E | done].
  - apply (held_not_open X S S' c); [done | done | by rewrite E | done].
  - apply (held_not_open X S S' c); [done | done | by rewrite E | done].
Qed.

Lemma held_get_db_connection X S :
  hoare (held X S) get_db_connection (fun c => held X (c :: S)) (fun _ => held X S).
Proof.
  intros w Hw. destruct (get_db_connection w) as [[c|e] w'] eqn:E.
  - destruct (get_db_connection_returns w c w' E) as (_ & -> & Hc & _).
    destruct Hw as ([l Hl] & Hb & Ho). split; [|split].
    + exists (l ++ [Open]). by rewrite Hc, Hl, app_assoc.
    + constructor; [|done]. rewrite Hl, length_app. lia.
    + intros i Hi. rewrite Hc.
      intros [Hopen | [Hi' Hlast]]%lookup_app_Some.
      * apply elem_of_cons. right. by apply Ho.
      * apply lookup_lt_Some in Hlast. cbn in Hlast.
        assert (i = length (connections w)) as -> by lia.
        apply elem_of_cons. by left.
  - destruct (get_db_connection_raises_connections w e w' E) as [Hc _].
    by apply (held_frame X S w).
Qed.

(** Membership in a list of handles written out. *)
Ltac handles := intros; rewrite ?elem_of_cons, ?elem_of_nil in *; intuition (subst; auto).

Ltac held_primitive := primitive; try solve [eapply held_frame; [|eassumption]; done].

Lemma held_check_open X S c : keeps (held X S) (check_open c).
Proof. held_primitive. Qed.

Lemma held_commit X S c : keeps (held X S) (commit c).
Proof. held_primitive. Qed.

Lemma held_create_events X S c : keeps (held X S) (create_events_sql c).
Proof. held_primitive. Qed.

Lemma held_alter X S c : keeps (held X S) (alter_image_url_sql c).
Proof. held_primitive. Qed.

Lemma held_insert X S c t de im da lo : keeps (held X S) (insert_event_sql c t de im da lo).
Proof. held_primitive. Qed.

Lemma held_select_events X S c : keeps (held X S) (select_events_sql c).
Proof. held_primitive. Qed.

Lemma held_create_debug X S c : keeps (held X S) (create_debug_sql c).
Proof. held_primitive. Qed.

Lemma held_replace_debug X S c text : keeps (held X S) (replace_debug_sql c text).
Proof. held_primitive. Qed.

Lemma held_select_debug X S c : keeps (held X S) (select_debug_sql c).
Proof. held_primitive. Qed.

Lemma held_set_LAST_EVENT_PAYLOAD X S v : keeps (held X S) (modify (set_LAST_EVENT_PAYLOAD v)).
Proof. held_primitive. Qed.

Lemma held_payload_get X S k p : keeps (held X S) (payload_get k p).
Proof. unfold payload_get. repeat step_keeps. Qed.

Lemma held_all_in X S fields p : keeps (held X S) (all_in fields p).
Proof. induction fields; cbn [all_in]; unfold contains; repeat step_keeps. Qed.

#[local] Hint Resolve held_check_open held_commit held_create_events held_alter held_insert
  held_select_events held_create_debug held_replace_debug held_select_debug
  held_set_LAST_EVENT_PAYLOAD held_payload_get held_all_in : keeps.

(** [connection = get_db_connection()], then [try: ... finally:
    connection.close()]: whatever the block does with the connection, short
    of releasing it, the connection is released when the block is left. *)
Lemma held_with_connection {A} X (m : nat -> M A) :
  (forall c, keeps (held X [c]) (m c)) ->
  keeps (held X []) (c <- get_db_connection ;; try_finally (m c) (close c)).
Proof.
  intros Hm. apply keeps_of_hoare.
  eapply hoare_bind; [apply held_get_db_connection|]. intros c.
  eapply hoare_try_finally with (Q1 := fun _ => held X [c]) (R1 := fun _ => held X [c]).
  - apply hoare_of_keeps, Hm.
  - intros ?. apply (held_close X [c] [] c); handles.
  - intros ?. apply (held_close X [c] [] c); handles.
Qed.

Lemma held_create_db_table X : keeps (held X []) create_db_table.
Proof.
  apply keeps_of_hoare. unfold create_db_table.
  eapply hoare_bind; [apply held_get_db_connection|]. intros c0.
  apply (hoare_assert (length X <= c0)%nat);
    [intros w Hw; by apply (held_bound X [] c0 w)|]. intros Hc0.
  assert (Hweak : forall w, held X [] w -> held X [c0] w).
  { intros w. apply held_weaken; [handles | by repeat constructor]. }
  apply hoare_try_except with (R1 := fun _ => held X [c0]).
  - eapply hoare_bind with (Q1 := fun c => held X [c; c0]).
    { eapply hoare_conseq; [apply held_get_db_connection | done | done]. }
    intros c.
    eapply hoare_bind; [apply (held_Connection_del X [c; c0] [c] c0); handles|].
    intros ?.
    eapply hoare_try_finally with (Q1 := fun _ => held X [c]) (R1 := fun _ => held X [c]).
    + apply hoare_of_keeps. repeat step_keeps.
    + intros ?. eapply hoare_conseq;
        [apply (held_close X [c] [] c); handles | done | intros ?; apply Hweak].
    + intros ?. eapply hoare_conseq;
        [apply (held_close X [c] [] c); handles | intros ?; apply Hweak
        | intros ?; apply Hweak].
  - intros e.
    eapply hoare_bind; [apply (held_Connection_del X [c0] [] c0); handles|].
    intros ?. by apply hoare_raise.
Qed.

#[local] Hint Resolve held_create_db_table : keeps.

Ltac held_auto :=
  repeat first
    [ solve [eauto with keeps]
    | apply held_with_connection; intros ?
    | apply keeps_ret
    | apply keeps_raise
    | apply keeps_bind; [| intros ?]
    | apply keeps_try_except; [| intros ?]
    | split_match ].

Lemma held_insert_data_into_db X p : keeps (held X []) (insert_data_into_db p).
Proof. unfold insert_data_into_db. held_auto. Qed.

Lemma held_fetch_data_from_db X : keeps (held X []) fetch_data_from_db.
Proof. unfold fetch_data_from_db. held_auto. Qed.

Lemma held_write_last_payload_to_db X p : keeps (held X []) (write_last_payload_to_db p).
Proof. unfold write_last_payload_to_db. held_auto. Qed.

#[local] Hint Resolve held_insert_data_into_db held_fetch_data_from_db
  held_write_last_payload_to_db : keeps.

Lemma held_view X r : keeps (held X []) (view r).
Proof.
  destruct r; cbn [view];
    unfold health, create_event, debug_last_event, get_data, request_get_json; held_auto.
Qed.

Lemma handle_releases r w :
  exists l, connections (handle r w).2 = connections w ++ l /\ Forall released l.
Proof. rewrite handle_world. apply held_released, held_view, held_start. Qed.

Lemma open_connections_released w w' l :
  connections w' = connections w ++ l -> Forall released l ->
  open_connections w' = open_connections w.
Proof.
  intros Hc Hl. unfold open_connections. rewrite Hc, List.filter_app, length_app.
  assert (Hnil : List.filter is_open l = []).
  { clear -Hl. induction Hl as [|s l [-> | ->] _ IH]; [done | by cbn | by cbn]. }
  rewrite Hnil. cbn. lia.
Qed.


(** ** Connections over a run of requests *)

Lemma serve_releases rs w :
  exists l, connections (serve rs w) = connections w ++ l /\ Forall released l.
Proof.
  revert w. induction rs as [|r rs IH]; intros w; cbn [serve].
  - exists []. by rewrite app_nil_r.
  - destruct (handle_releases r w) as (l1 & Hl1 & Hrel1).
    destruct (IH (handle r w).2) as (l2 & Hl2 & Hrel2).
    exists (l1 ++ l2). split; [by rewrite Hl2, Hl1, app_assoc | by apply Forall_app].
Qed.


(** ** A value that the server refuses *)

Lemma new_event_row_refusal t ti de im da lo e :
  new_event_row t ti de im da lo = Raise e -> exists x, e = MySQLError x.
Proof.
  unfold new_event_row. repeat case_match; intros [= <-]; eauto.
Qed.

Lemma insert_data_into_db_refused w d e :
  available w ->
  truthy (dict_get "title" d) = true ->
  truthy (dict_get "date" d) = true ->
  new_event_row (EventsTable TEXT (auto_increment (ensured_events (events w)))
                             (event_rows w))
                (dict_get "title" d) (dict_get "description" d) (dict_get "image_url" d)
                (dict_get "date" d) (dict_get "location" d) = Raise e ->
  insert_data_into_db (JObj d) w
  = (Raise e,
     World (environ w) (refusals w) (connections w ++ [ForceClosed; Closed; Closed])
           (Some (EventsTable TEXT (auto_increment (ensured_events (events w)))
                              (event_rows w)))
           (debug_last_payload w) (LAST_EVENT_PAYLOAD w) (now w)).
Proof.
  intros Ha Ht Hd Hr. unfold insert_data_into_db, payload_get. unfold_driver.
  run. rewrite Ht, Hd. cbn [negb orb].
  destruct w as [env refs cs [t|] dbg last clock];
    cbn [events event_rows ensured_events auto_increment ev_rows] in Hr;
    run; rewrite Hr; run; by rewrite <- app_assoc.
Qed.

(** X14. On a configured and reachable store, when the server refuses one of the
    five values of a payload that passed the checks, the request is
    answered 500 with the text of the refusal and no row is added; the
    connection of the writer is closed, as are all six connections of the
    request (the first one of each [create_db_table] by its destructor), and
    the [image_url] column stays altered to TEXT, the ALTER having run
    before the INSERT. *)
Theorem refused_value_is_500 w d e :
  available w ->
  bind_text TEXT (JStr (dumps (JObj d))) <> None ->
  truthy (dict_get "title" d) = true ->
  truthy (dict_get "date" d) = true ->
  new_event_row (EventsTable TEXT (auto_increment (ensured_events (events w)))
                             (event_rows w))
                (dict_get "title" d) (dict_get "description" d) (dict_get "image_url" d)
                (dict_get "date" d) (dict_get "location" d) = Raise e ->
  (handle (POST_events (Decoded (JObj d))) w).1
  = Reply 500 (Jsonify (JObj [("error", JStr "During event creation");
                              ("detail", JStr (str e))])) /\
  events (handle (POST_events (Decoded (JObj d))) w).2
  = Some (EventsTable TEXT (auto_increment (ensured_events (events w))) (event_rows w)) /\
  connections (handle (POST_events (Decoded (JObj d))) w).2
  = connections w ++ [ForceClosed; Closed; Closed; ForceClosed; Closed; Closed].
Proof.
  intros Ha Hc Ht Hd Hr. apply accepted_text in Hc.
  destruct (new_event_row_refusal _ _ _ _ _ _ _ Hr) as [x ->].
  assert (Hv : view (POST_events (Decoded (JObj d))) w
               = (Ok (500, Jsonify (JObj [("error", JStr "During event creation");
                                          ("detail", JStr (str (MySQLError x)))])),
                  World (environ w) (refusals w)
                        ((connections w ++ [ForceClosed; Closed; Closed]) ++ [ForceClosed; Closed; Closed])
                        (Some (EventsTable TEXT (auto_increment (ensured_events (events w)))
                                           (event_rows w)))
                        (Some (List.filter other_key (debug_rows w)
                               ++ [DebugRow 1 (Some (dumps (JObj d))) (now w)]))
                        (JObj d) (now w))).
  { cbn [view]. rewrite (create_event_mirrored w _ _ Ha Hc).
    unfold try_except, create_event_tail, modify, bind at 1 2.
    assert (Hne : truthy (JObj d) = true) by (destruct d; [by cbn in Ht | done]).
    rewrite Hne. cbn [negb all_in required_fields contains bind ret].
    rewrite (truthy_dict_has _ _ Ht), (truthy_dict_has _ _ Hd).
    unfold bind, ret. cbn [negb]. cbn beta iota.
    rewrite (insert_data_into_db_refused _ d (MySQLError x)); [| frame | done | done |].
    - cbn [mirrored set_LAST_EVENT_PAYLOAD environ refusals connections events
           debug_last_payload LAST_EVENT_PAYLOAD now ensured_events auto_increment
           event_rows ev_rows create_event_handler]. unfold ret.
      by rewrite event_rows_ensured.
    - cbn [mirrored set_LAST_EVENT_PAYLOAD events ensured_events auto_increment
           event_rows ev_rows].
      by rewrite event_rows_ensured. }
  rewrite (handle_returns _ _ _ _ _ Hv). cbn [fst snd events connections].
  by rewrite <- app_assoc.
Qed.

(** ** A new event in the list *)

Lemma create_event_created w d r :
  available w ->
  bind_text TEXT (JStr (dumps (JObj d))) <> None ->
  truthy (dict_get "title" d) = true ->
  truthy (dict_get "date" d) = true ->
  new_event_row (EventsTable TEXT (auto_increment (ensured_events (events w)))
                             (event_rows w))
                (dict_get "title" d) (dict_get "description" d) (dict_get "image_url" d)
                (dict_get "date" d) (dict_get "location" d) = Ok r ->
  handle (POST_events (Decoded (JObj d))) w
  = (Reply 201 (Jsonify (JObj [("message", JStr "Event created successfully")])),
     World (environ w) (refusals w)
           (connections w ++ [ForceClosed; Closed; Closed; ForceClosed; Closed; Closed])
           (Some (EventsTable TEXT (auto_increment (ensured_events (events w)) + 1)
                              (event_rows w ++ [r])))
           (Some (List.filter other_key (debug_rows w)
                  ++ [DebugRow 1 (Some (dumps (JObj d))) (now w)]))
           (JObj d) (now w)).
Proof.
  intros Ha Hc Ht Hd Hr. apply accepted_text in Hc.
  apply handle_returns. cbn [view].
  rewrite (create_event_mirrored w _ _ Ha Hc). unfold try_except.
  rewrite (create_event_tail_created _ _ r); [| by frame | done | done |].
  - cbn [fst snd mirrored environ refusals connections events debug_last_payload
         LAST_EVENT_PAYLOAD now ensured_events auto_increment event_rows ev_rows].
    by rewrite event_rows_ensured, <- app_assoc.
  - cbn [mirrored events ensured_events auto_increment event_rows ev_rows].
    by rewrite event_rows_ensured.
Qed.

(** X15. On a configured and reachable store, an event that POST /events has
    accepted is in the answer of the next GET /data: the list is the rows
    of before and the new row, in ascending order of date. *)
Theorem post_then_get_data w d r :
  available w ->
  bind_text TEXT (JStr (dumps (JObj d))) <> None ->
  truthy (dict_get "title" d) = true ->
  truthy (dict_get "date" d) = true ->
  new_event_row (EventsTable TEXT (auto_increment (ensured_events (events w)))
                             (event_rows w))
                (dict_get "title" d) (dict_get "description" d) (dict_get "image_url" d)
                (dict_get "date" d) (dict_get "location" d) = Ok r ->
  exists rows,
    (handle GET_data (handle (POST_events (Decoded (JObj d))) w).2).1
    = Reply 200 (Jsonify (JObj [("data", JArr (map row_dict rows))])) /\
    Permutation rows (event_rows w ++ [r]) /\
    StronglySorted by_date rows /\
    In (row_dict r) (map row_dict rows).
Proof.
  intros Ha Hc Ht Hd Hr.
  pose proof (available_handle (POST_events (Decoded (JObj d))) w Ha) as Ha'.
  rewrite (create_event_created w d r Ha Hc Ht Hd Hr) in *. cbn [snd] in *.
  exists (merge_sort by_date (event_rows w ++ [r])).
  rewrite (handle_returns GET_data _ _ _ _ (get_data_ok _ Ha')). cbn [fst].
  split; [done|]. split; [apply merge_sort_Permutation|].
  split; [apply StronglySorted_merge_sort; apply _|].
  apply in_map. apply list_elem_of_In.
  rewrite merge_sort_Permutation. apply list_elem_of_In, in_or_app. right. by left.
Qed.

Lemma new_event_row_again t t' ti de im da lo r :
  image_url_type t' = image_url_type t ->
  new_event_row t ti de im da lo = Ok r ->
  new_event_row t' ti de im da lo = Ok (with_id (auto_increment t') r).
Proof.
  unfold new_event_row. intros ->.
  repeat case_match; try done. by intros [= <-].
Qed.

(** X16. On a configured and reachable store, the same valid payload posted
    twice gives two rows: both requests are answered 201, and the second
    row is the first with the next key.  Nothing is deduplicated. *)
Theorem same_payload_twice w d r :
  available w ->
  bind_text TEXT (JStr (dumps (JObj d))) <> None ->
  truthy (dict_get "title" d) = true ->
  truthy (dict_get "date" d) = true ->
  new_event_row (EventsTable TEXT (auto_increment (ensured_events (events w)))
                             (event_rows w))
                (dict_get "title" d) (dict_get "description" d) (dict_get "image_url" d)
                (dict_get "date" d) (dict_get "location" d) = Ok r ->
  let w1 := (handle (POST_events (Decoded (JObj d))) w).2 in
  status_code (handle (POST_events (Decoded (JObj d))) w).1 = 201 /\
  status_code (handle (POST_events (Decoded (JObj d))) w1).1 = 201 /\
  event_rows (handle (POST_events (Decoded (JObj d))) w1).2
  = event_rows w ++ [r; with_id (ev_id r + 1) r].
Proof.
  intros Ha Hc Ht Hd Hr w1.
  pose proof (available_handle (POST_events (Decoded (JObj d))) w Ha) as Ha'.
  subst w1. rewrite (create_event_created w d r Ha Hc Ht Hd Hr) in *. cbn [fst snd] in *.
  split; [done|].
  assert (Hid : ev_id r = auto_increment (ensured_events (events w))).
  { revert Hr. unfold new_event_row. repeat case_match; try done. by intros [= <-]. }
  rewrite (create_event_created _ d (with_id (ev_id r + 1) r) Ha'); [| done | done | done |].
  - cbn [fst snd status_code event_rows events ev_rows]. split; [done|].
    by rewrite <- app_assoc.
  - cbn [events ensured_events auto_increment event_rows ev_rows]. rewrite Hid.
    by apply (new_event_row_again
                (EventsTable TEXT (auto_increment (ensured_events (events w))) (event_rows w))).
Qed.

(** ** A server that refuses the connection *)

Lemma get_db_connection_refused w t rest :
  missing_vars w = [] ->
  refusals w = Some (Operational t) :: rest ->
  get_db_connection w
  = (Raise (ConnectionError ("Failed to connect to the database: " +:+ t)),
     set_refusals rest w).
Proof.
  intros Hm Hr. unfold get_db_connection, bind, get_world. rewrite Hm.
  unfold try_except, pymysql_connect. by rewrite Hr.
Qed.

(** X17. When the four variables are set and [pymysql.connect] raises
    [OperationalError] (the server refuses the connection), POST /events (for a body that [request.get_json()] decodes) and GET /data
    answer 500 with the [detail] [Failed to connect to the database: ...]
    that carries the server's text, and the same [ConnectionError] leaves
    the view of GET /debug_last_event unhandled.  No connection is opened and
    no table is touched. *)
Theorem refused_connection_is_500 w t rest :
  missing_vars w = [] ->
  refusals w = Some (Operational t) :: rest ->
  (forall p,
     handle (POST_events (Decoded p)) w
     = (Reply 500 (Jsonify (JObj [("error", JStr "During event creation");
                                  ("detail", JStr ("Failed to connect to the database: " +:+ t))])),
        set_refusals rest w)) /\
  handle GET_data w
  = (Reply 500 (Jsonify (JObj [("error", JStr "During data retrieval");
                               ("detail", JStr ("Failed to connect to the database: " +:+ t))])),
     set_refusals rest w) /\
  handle GET_debug_last_event w
  = (Unhandled (ConnectionError ("Failed to connect to the database: " +:+ t)),
     set_refusals rest w).
Proof.
  intros Hm Hr. pose proof (get_db_connection_refused w t rest Hm Hr) as Hg.
  assert (Hc : create_db_table w
               = (Raise (ConnectionError ("Failed to connect to the database: " +:+ t)),
                  set_refusals rest w)).
  { unfold create_db_table, bind. by rewrite Hg. }
  repeat split.
  - intros p. apply handle_returns. cbn [view]. rewrite create_event_eq.
    unfold try_except, bind, write_last_payload_to_db, bind. cbn beta. by rewrite Hc.
  - apply (handle_returns GET_data). cbn [view].
    unfold get_data, try_except, bind, fetch_data_from_db, bind. cbn beta. by rewrite Hc.
  - apply (handle_raises GET_debug_last_event). cbn [view].
    unfold debug_last_event, bind. by rewrite Hg.
Qed.

(** ** The text of the Payload Mirror *)

Lemma printable_app a b : no_c0_control (a +:+ b) = no_c0_control a && no_c0_control b.
Proof.
  induction a as [|c a IH]; [done|].
  rewrite append_cons. cbn [no_c0_control]. by rewrite IH, andb_assoc.
Qed.

Lemma escape_char_printable c : no_c0_control (escape_char c) = true.
Proof.
  destruct c as [b0 b1 b2 b3 b4 b5 b6 b7].
  destruct b0, b1, b2, b3, b4, b5, b6, b7; vm_compute; reflexivity.
Qed.

Lemma escape_char_plain c : needs_escape c = false -> escape_char c = String c EmptyString.
Proof.
  destruct c as [b0 b1 b2 b3 b4 b5 b6 b7].
  destruct b0, b1, b2, b3, b4, b5, b6, b7; vm_compute; intros; done.
Qed.

Lemma escape_string_printable s : no_c0_control (escape_string s) = true.
Proof.
  induction s as [|c s IH]; [done|].
  cbn [escape_string]. by rewrite printable_app, escape_char_printable, IH.
Qed.

Lemma escape_string_plain s : plain s = true -> escape_string s = s.
Proof.
  induction s as [|c s IH]; [done|].
  cbn [plain escape_string]. intros [Hc Hs]%andb_prop.
  apply negb_true_iff in Hc. by rewrite (escape_char_plain c Hc), IH.
Qed.

(** X18. The text that [json.dumps(payload, ensure_ascii=False)] gives for a
    str holds no character below U+0020, whatever the str: with the quote
    and the backslash these are the characters it escapes.  Every other
    character is copied as it is, the delete character U+007F and the
    characters outside ASCII included: a str without character below U+0020,
    quote or backslash is written unchanged between two quotes. *)
Theorem dumps_of_a_str s :
  no_c0_control (dumps (JStr s)) = true /\
  (plain s = true -> dumps (JStr s) = String quote (s +:+ String quote EmptyString)).
Proof.
  cbn [dumps]. unfold dumps_str. split.
  - cbn [no_c0_control]. rewrite printable_app, escape_string_printable. by vm_compute.
  - intros Hs. by rewrite (escape_string_plain s Hs).
Qed.

End Properties.

(** ** The properties on the reference server *)

Lemma available_restarted : available restarted.
Proof. split; reflexivity. Qed.

(** GET /health does not look at the store. *)
Example health_always_200 w :
  handle GET_health w = (Reply 200 (Jsonify (JObj [("status", JStr "healthy")])), w).
Proof. reflexivity. Qed.

(** Events posted out of order come back ordered by date. *)
Example data_is_ordered :
  (handle GET_data three_events).1
  = Reply 200 (Jsonify (JObj [("data", JArr (map row_dict
       [EventRow 1 "first" None None (Date 2024 1 5) None;
        EventRow 3 "third" None None (Date 2024 2 10) None;
        EventRow 2 "second" None None (Date 2024 3 1) None]))])).
Proof. vm_compute. reflexivity. Qed.

(** The answer of GET /data written out: the five keys, [None] for NULL, the
    date as YYYY-MM-DD with its leading zeros. *)
Example data_written_out :
  (handle GET_data catalogue).1
  = Reply 200 (Jsonify (JObj [("data", JArr
      [JObj [("title", JStr "Talk"); ("date", JStr "0987-11-20");
             ("image_url", JNull); ("description", JNull); ("location", JNull)];
       JObj [("title", JStr "Fair"); ("date", JStr "2024-05-09");
             ("image_url", JStr "https://example.org/fair.png");
             ("description", JStr "Spring fair");
             ("location", JStr "Main square")]])])).
Proof. vm_compute. reflexivity. Qed.

(** A server that cannot be reached is a 500 with the cause in [detail]. *)
Example server_down_is_500 :
  handle GET_data server_down
  = (Reply 500 (Jsonify (JObj [("error", JStr "During data retrieval");
                               ("detail", JStr "Failed to connect to the database: (2003, 'unreachable')")])),
     set_refusals [] server_down).
Proof. vm_compute. reflexivity. Qed.

(** When the connection inside the [try] of [create_db_table] is refused, the
    one taken before it is never closed by the function: its destructor
    releases it. *)
Example refused_inside_create_db_table :
  (handle GET_data second_refused).1
  = Reply 500 (Jsonify (JObj [("error", JStr "During data retrieval");
                              ("detail", JStr "Table creation failed: Failed to connect to the database: (1040, 'Too many connections')")])) /\
  connections (handle GET_data second_refused).2 = [ForceClosed].
Proof. split; vm_compute; reflexivity. Qed.

(** After a rejected POST, the debug endpoint returns the rejected payload. *)
Example rejected_payload_is_shown :
  (handle GET_debug_last_event (handle (POST_events (Decoded (JObj title_only))) fresh).2).1
  = Reply 200 (JsonifyDebugRow (Some (dumps (JObj title_only))) 1700000000).
Proof. vm_compute. reflexivity. Qed.

Lemma rejected_payload_adds_no_row_witness :
  event_rows (handle (POST_events (Decoded (JObj title_only))) fresh).2 = event_rows fresh /\
  (handle (POST_events (Decoded (JObj title_only))) fresh).1
  = Reply 400 (Jsonify (JObj [("error", JStr "Missing required fields: 'title' and 'date'")])).
Proof.
  destruct (rejected_payload_adds_no_row fresh title_only) as [Hrows Hstatus].
  - right. left. reflexivity.
  - split; [exact Hrows|]. apply Hstatus.
    + split; reflexivity.
    + vm_compute. discriminate.
    + right. reflexivity.
Defined.

(** An empty [title] is not answered 400 but 500. *)
Lemma empty_title_is_answered_500 :
  empty_value "title" empty_title /\
  (handle (POST_events (Decoded (JObj empty_title))) fresh).1
  = Reply 500 (Jsonify (JObj [("error", JStr "During event creation");
                              ("detail", JStr "Missing required fields: title, date")])) /\
  status_code (handle (POST_events (Decoded (JObj empty_title))) fresh).1 <> 400.
Proof.
  split; [split; reflexivity|]. split; [vm_compute; reflexivity|].
  vm_compute. discriminate.
Qed.

Lemma valid_payload_inserts_one_row_witness :
  (handle (POST_events (Decoded (JObj launch))) fresh).1
  = Reply 201 (Jsonify (JObj [("message", JStr "Event created successfully")])) /\
  event_rows (handle (POST_events (Decoded (JObj launch))) fresh).2
  = event_rows fresh ++ [EventRow 1 "Launch" None None (Date 2024 3 1) (Some "Hall A")].
Proof.
  destruct (valid_payload_inserts_one_row fresh launch "Launch" None None (Date 2024 3 1)
              (Some "Hall A")) as (Hreply & Hrows & _).
  - split; reflexivity.
  - vm_compute. discriminate.
  - reflexivity.
  - reflexivity.
  - reflexivity.
  - reflexivity.
  - reflexivity.
  - reflexivity.
  - reflexivity.
  - split; [exact Hreply | exact Hrows].
Defined.

(** A payload that has both keys, the date empty, is answered 500 and no row
    is inserted. *)
Lemma empty_date_is_not_inserted :
  dict_has "title" empty_date = true /\
  dict_has "date" empty_date = true /\
  status_code (handle (POST_events (Decoded (JObj empty_date))) fresh).1 = 500 /\
  event_rows (handle (POST_events (Decoded (JObj empty_date))) fresh).2 = [].
Proof. repeat split; vm_compute; reflexivity. Qed.

Lemma get_data_lists_events_by_date_witness :
  exists rows,
    (handle GET_data catalogue).1
    = Reply 200 (Jsonify (JObj [("data", JArr (map row_dict rows))])) /\
    Permutation rows (event_rows catalogue) /\
    StronglySorted by_date rows /\
    YYYY_MM_DD (Date 987 11 20) = "0987-11-20".
Proof.
  destruct (get_data_lists_events_by_date catalogue) as (rows & Hreply & Hperm & Hsorted & _).
  - split; reflexivity.
  - exists rows. split; [exact Hreply|]. split; [exact Hperm|]. split; [exact Hsorted|].
    reflexivity.
Defined.

Lemma payload_mirrored_before_validation_witness :
  debug_last_payload (handle (POST_events (Decoded (JObj title_only))) fresh).2
  = Some [DebugRow 1 (Some (dumps (JObj title_only))) 1700000000] /\
  status_code (handle (POST_events (Decoded (JObj title_only))) fresh).1 = 400.
Proof.
  destruct (payload_mirrored_before_validation fresh (JObj title_only)) as (_ & _ & Hdecoded).
  destruct Hdecoded as (_ & _ & Hrow & Hstatus).
  - split; reflexivity.
  - vm_compute. discriminate.
  - split; [exact Hrow|]. apply (Hstatus title_only); [reflexivity|]. right. reflexivity.
Defined.

(** A body that [request.get_json()] refuses is not mirrored, as null or
    otherwise; the row of the request before stays. *)
Lemma undecodable_body_is_not_mirrored :
  status_code (handle (POST_events (Undecodable 400 "400 Bad Request")) restarted).1 = 500 /\
  debug_last_payload (handle (POST_events (Undecodable 400 "400 Bad Request")) restarted).2
  = Some [DebugRow 1 (Some (dumps (JObj launch))) 1700000000] /\
  dumps JNull = "null".
Proof. repeat split; vm_compute; reflexivity. Qed.

Lemma missing_configuration_is_500_witness :
  handle GET_data unconfigured
  = (Reply 500 (Jsonify (JObj [("error", JStr "During data retrieval");
                               ("detail", JStr (missing_message unconfigured))])),
     unconfigured) /\
  missing_message unconfigured = "Missing environment variables: DB_PASSWORD".
Proof.
  destruct (missing_configuration_is_500 unconfigured) as (_ & Hdata & _).
  - vm_compute. discriminate.
  - split; [exact Hdata|]. vm_compute. reflexivity.
Defined.

(** With a variable missing, the exception leaves the view of
    GET /debug_last_event, and the application builds no body that could
    name a variable. *)
Lemma debug_last_event_names_nothing :
  missing_vars unconfigured = ["DB_PASSWORD"] /\
  (handle GET_debug_last_event unconfigured).1
  = Unhandled (EnvironmentError "Missing environment variables: DB_PASSWORD") /\
  reply_body (handle GET_debug_last_event unconfigured).1 = None.
Proof. repeat split; vm_compute; reflexivity. Qed.


Lemma tables_ensured_per_route_witness :
  tables_exist (handle (POST_events (Decoded (JObj title_only))) fresh).2 /\
  debug_last_payload (handle GET_data fresh).2 = None /\
  (handle GET_debug_last_event fresh).1
  = Unhandled (MySQLError (NoSuchTable "debug_last_payload")).
Proof.
  destruct (tables_ensured_per_route fresh) as (_ & _ & Hpost & [_ Hdata] & _ & Hdebug).
  - split; reflexivity.
  - split; [apply Hpost|]. split; [exact Hdata|]. apply Hdebug. reflexivity.
Defined.

(** GET /debug_last_event creates neither table, GET /data does not create
    the debug table. *)
Lemma debug_last_event_creates_no_table :
  events fresh = None /\
  debug_last_payload fresh = None /\
  events (handle GET_debug_last_event fresh).2 = None /\
  debug_last_payload (handle GET_debug_last_event fresh).2 = None /\
  debug_last_payload (handle GET_data fresh).2 = None.
Proof. repeat split; vm_compute; reflexivity. Qed.

Lemma debug_table_single_row_witness :
  debug_inv (handle GET_data (handle (POST_events (Decoded (JObj launch))) fresh).2).2 /\
  debug_last_payload
    (handle (POST_events (Decoded (JObj title_only)))
            (handle (POST_events (Decoded (JObj launch))) fresh).2).2
  = Some [DebugRow 1 (Some (dumps (JObj title_only))) 1700000000].
Proof.
  destruct debug_table_single_row as (Hinv & _ & Hrow).
  assert (H0 : debug_inv fresh) by (split; [cbn; lia | constructor]).
  split.
  - apply (Hinv fresh); [exact H0|]. do 2 apply reach_request. apply reach_start.
  - apply Hrow.
    + apply (Hinv fresh); [exact H0|]. apply reach_request. apply reach_start.
    + split; reflexivity.
    + vm_compute. discriminate.
Defined.

Lemma debug_last_event_reads_the_table_witness :
  (handle GET_debug_last_event (set_LAST_EVENT_PAYLOAD (JStr "other") restarted)).1
  = (handle GET_debug_last_event restarted).1 /\
  (handle GET_debug_last_event restarted).1
  = Reply 200 (JsonifyDebugRow (Some (dumps (JObj launch))) 1700000000) /\
  LAST_EVENT_PAYLOAD (handle (POST_events (Decoded (JObj title_only))) restarted).2
  = JObj title_only.
Proof.
  destruct (debug_last_event_reads_the_table restarted (JStr "other"))
    as (Hsame & Hrow & Hglobal).
  split; [exact Hsame|]. split.
  - apply (Hrow available_restarted
             [DebugRow 1 (Some (dumps (JObj launch))) 1700000000]).
    vm_compute. reflexivity.
  - apply (Hglobal available_restarted). vm_compute. discriminate.
Defined.

(** After a restart the global is [None] while the endpoint still shows the
    payload of the last request, which it reads from the table. *)
Lemma global_is_not_what_the_endpoint_shows :
  LAST_EVENT_PAYLOAD restarted = JNull /\
  (handle GET_debug_last_event restarted).1
  = Reply 200 (JsonifyDebugRow (Some (dumps (JObj launch))) 1700000000) /\
  (handle GET_debug_last_event (set_LAST_EVENT_PAYLOAD (JObj title_only) restarted)).1
  = (handle GET_debug_last_event restarted).1.
Proof. repeat split; vm_compute; reflexivity. Qed.

(** ** The further properties on the reference server *)

Lemma post_then_debug_last_event_witness :
  (handle GET_debug_last_event (handle (POST_events (Decoded (JObj launch))) three_events).2).1
  = Reply 200 (JsonifyDebugRow (Some (dumps (JObj launch))) 1700000000).
Proof.
  apply (post_then_debug_last_event three_events (JObj launch)).
  - split; reflexivity.
  - vm_compute. discriminate.
Defined.

Lemma falsy_payload_is_400_witness :
  (handle (POST_events (Decoded (JObj []))) fresh).1
  = Reply 400 (Jsonify (JObj [("error", JStr "Missing required fields: 'title' and 'date'")])) /\
  LAST_EVENT_PAYLOAD (handle (POST_events (Decoded (JObj []))) fresh).2 = JObj [].
Proof.
  rewrite (falsy_payload_is_400 fresh (JObj [])).
  - split; reflexivity.
  - split; reflexivity.
  - vm_compute. discriminate.
  - reflexivity.
Defined.

Lemma mirror_failure_ends_the_request_witness :
  handle (POST_events (Decoded (JObj launch))) server_down
  = (Reply 500 (Jsonify (JObj [("error", JStr "During event creation");
                               ("detail", JStr "Failed to connect to the database: (2003, 'unreachable')")])),
     set_refusals [] server_down) /\
  event_rows (set_refusals [] server_down) = event_rows server_down /\
  LAST_EVENT_PAYLOAD (set_refusals [] server_down) = LAST_EVENT_PAYLOAD server_down.
Proof.
  apply (mirror_failure_ends_the_request server_down (JObj launch)
           (ConnectionError "Failed to connect to the database: (2003, 'unreachable')")).
  vm_compute. reflexivity.
Defined.

Lemma get_db_connection_outcomes_witness :
  connections (get_db_connection fresh).2 = connections fresh ++ [Open] /\
  connections (get_db_connection server_down).2 = connections server_down /\
  connections (get_db_connection driver_fault).2 = connections driver_fault.
Proof.
  split; [|split].
  - destruct (get_db_connection_outcomes fresh) as [Hok _].
    destruct (Hok 0%nat (get_db_connection fresh).2) as (_ & _ & Hc & _);
      [vm_compute; reflexivity | exact Hc].
  - destruct (get_db_connection_outcomes server_down) as [_ Hraise].
    destruct (Hraise (ConnectionError "Failed to connect to the database: (2003, 'unreachable')")
                     (get_db_connection server_down).2) as [Hc _];
      [vm_compute; reflexivity | exact Hc].
  - destruct (get_db_connection_outcomes driver_fault) as [_ Hraise].
    destruct (Hraise (RuntimeError "'cryptography' package is required for sha256_password or caching_sha2_password auth methods")
                     (get_db_connection driver_fault).2) as [Hc _];
      [vm_compute; reflexivity | exact Hc].
Defined.


Lemma create_db_table_is_idempotent_witness :
  events (create_db_table (create_db_table three_events).2).2
  = events (create_db_table three_events).2 /\
  debug_last_payload (create_db_table (create_db_table three_events).2).2
  = debug_last_payload three_events /\
  event_rows (create_db_table three_events).2 = event_rows three_events.
Proof. apply (create_db_table_is_idempotent three_events). split; reflexivity. Defined.

Lemma post_status_tells_the_payload_witness :
  (truthy (JObj title_only) = false \/ lacks_required (JObj title_only)) /\
  has_title_and_date (JObj launch).
Proof.
  split.
  - destruct (post_status_tells_the_payload fresh (JObj title_only)) as [H400 _].
    apply H400. vm_compute. reflexivity.
  - destruct (post_status_tells_the_payload fresh (JObj launch)) as [_ H201].
    apply H201. vm_compute. reflexivity.
Defined.

Lemma empty_value_is_answered_500_witness :
  (handle (POST_events (Decoded (JObj empty_date))) three_events).1
  = Reply 500 (Jsonify (JObj [("error", JStr "During event creation");
                              ("detail", JStr "Missing required fields: title, date")])).
Proof.
  apply (empty_value_is_answered_500 three_events empty_date).
  - split; reflexivity.
  - vm_compute. discriminate.
  - reflexivity.
  - reflexivity.
  - right. reflexivity.
Defined.

Lemma refused_value_is_500_witness :
  (handle (POST_events (Decoded (JObj bad_date))) fresh).1
  = Reply 500 (Jsonify (JObj [("error", JStr "During event creation");
                              ("detail", JStr "Incorrect value for column 'date'")])) /\
  events (handle (POST_events (Decoded (JObj bad_date))) fresh).2
  = Some (EventsTable TEXT 1 []) /\
  connections (handle (POST_events (Decoded (JObj bad_date))) fresh).2
  = [ForceClosed; Closed; Closed; ForceClosed; Closed; Closed].
Proof.
  refine (refused_value_is_500 fresh bad_date (MySQLError (ValueRefused "date")) _ _ _ _ _).
  - split; reflexivity.
  - vm_compute. discriminate.
  - reflexivity.
  - reflexivity.
  - vm_compute. reflexivity.
Defined.

Lemma post_then_get_data_witness :
  exists rows,
    (handle GET_data (handle (POST_events (Decoded (JObj launch))) three_events).2).1
    = Reply 200 (Jsonify (JObj [("data", JArr (map row_dict rows))])) /\
    Permutation rows
      (event_rows three_events
       ++ [EventRow 4 "Launch" None None (Date 2024 3 1) (Some "Hall A")]) /\
    StronglySorted by_date rows /\
    In (row_dict (EventRow 4 "Launch" None None (Date 2024 3 1) (Some "Hall A")))
       (map row_dict rows).
Proof.
  apply (post_then_get_data three_events launch
           (EventRow 4 "Launch" None None (Date 2024 3 1) (Some "Hall A"))).
  - split; reflexivity.
  - vm_compute. discriminate.
  - reflexivity.
  - reflexivity.
  - vm_compute. reflexivity.
Defined.

Lemma same_payload_twice_witness :
  event_rows (handle (POST_events (Decoded (JObj launch)))
                     (handle (POST_events (Decoded (JObj launch))) fresh).2).2
  = [EventRow 1 "Launch" None None (Date 2024 3 1) (Some "Hall A");
     EventRow 2 "Launch" None None (Date 2024 3 1) (Some "Hall A")].
Proof.
  destruct (same_payload_twice fresh launch
              (EventRow 1 "Launch" None None (Date 2024 3 1) (Some "Hall A")))
    as (_ & _ & Hrows).
  - split; reflexivity.
  - vm_compute. discriminate.
  - reflexivity.
  - reflexivity.
  - vm_compute. reflexivity.
  - exact Hrows.
Defined.

Lemma refused_connection_is_500_witness :
  handle GET_data server_down
  = (Reply 500 (Jsonify (JObj [("error", JStr "During data retrieval");
                               ("detail", JStr "Failed to connect to the database: (2003, 'unreachable')")])),
     set_refusals [] server_down) /\
  handle GET_debug_last_event server_down
  = (Unhandled (ConnectionError "Failed to connect to the database: (2003, 'unreachable')"),
     set_refusals [] server_down).
Proof.
  destruct (refused_connection_is_500 server_down "(2003, 'unreachable')" [])
    as (_ & Hdata & Hdebug).
  - reflexivity.
  - reflexivity.
  - split; [exact Hdata | exact Hdebug].
Defined.

Lemma dumps_of_a_str_witness :
  dumps (JStr accented) = String quote (accented +:+ String quote EmptyString) /\
  plain accented = true.
Proof.
  split; [|reflexivity].
  destruct (dumps_of_a_str accented) as [_ Hplain]. apply Hplain. reflexivity.
Defined.
